(** * Review_Bias_Analysis: the fetch-expand-sample pipeline of
      [V2/fetch_reviews.py], embedded and checked against its specification.

    The Python program is embedded shallowly.  Values read from the remote
    service are dynamically typed, so they are modelled by a small universe
    of Python values; [try]/[except Exception] blocks are modelled with an
    explicit result type; the console, the clock, the file system, the remote
    service and the process-global random generator are threaded through a
    state monad over a [World]. *)

From Stdlib Require Import ZArith Lia.
From stdpp Require Import base option list strings pretty gmap.

Local Open Scope Z_scope.
Local Open Scope string_scope.
Local Open Scope list_scope.

(** ** Python values and exceptions *)

Set Warnings "-register-all".

(** The part of Python's value universe that the attributes of a note can
    hold in this development: [None], integers, strings and lists. *)
Inductive pyval : Type :=
  | PyNone
  | PyInt (z : Z)
  | PyStr (s : string)
  | PyList (l : list pyval).

(** An exception object deriving from [Exception]: its class name and the
    text that [str(e)] yields. *)
Record PyException : Type := mkExc { exc_class : string; exc_msg : string }.

Inductive result (A : Type) : Type :=
  | Ok (a : A)
  | Raise (e : PyException).
Arguments Ok {A} a.
Arguments Raise {A} e.

Definition rbind {A B} (r : result A) (k : A -> result B) : result B :=
  match r with
  | Ok a => k a
  | Raise e => Raise e
  end.

Definition TypeError (msg : string) : PyException := mkExc "TypeError" msg.
Definition IndexError (msg : string) : PyException := mkExc "IndexError" msg.
Definition ValueError (msg : string) : PyException := mkExc "ValueError" msg.

(** [type(v).__name__] *)
Definition py_typename (v : pyval) : string :=
  match v with
  | PyNone => "NoneType"
  | PyInt _ => "int"
  | PyStr _ => "str"
  | PyList _ => "list"
  end.

(** [bool(v)], as used by [if v:] and by [and]. *)
Definition py_truthy (v : pyval) : bool :=
  match v with
  | PyNone => false
  | PyInt z => negb (Z.eqb z 0)
  | PyStr s => negb (String.eqb s "")
  | PyList l => match l with [] => false | _ :: _ => true end
  end.

(** A Python [str] is held as the bytes of its UTF-8 encoding.  One
    character is a byte that is not a continuation byte ([10xxxxxx]),
    together with the continuation bytes that follow it. *)
Definition is_continuation (c : Ascii.ascii) : bool :=
  Nat.leb 128 (Ascii.nat_of_ascii c) && Nat.ltb (Ascii.nat_of_ascii c) 192.

(** [len(s)]: the number of characters. *)
Fixpoint str_len (s : string) : nat :=
  match s with
  | EmptyString => 0%nat
  | String c t => ((if is_continuation c then 0 else 1) + str_len t)%nat
  end.

(** [s[:n]]: the first [n] characters, each with all its bytes. *)
Fixpoint str_take (n : nat) (s : string) : string :=
  match s with
  | EmptyString => EmptyString
  | String c t =>
      if is_continuation c then String c (str_take n t)
      else match n with
           | O => EmptyString
           | S n' => String c (str_take n' t)
           end
  end.

(** The characters of a string, in order. *)
Fixpoint split_chars (s : string) : list string :=
  match s with
  | EmptyString => []
  | String c t =>
      let r := split_chars t in
      match t with
      | EmptyString => String c EmptyString :: r
      | String d _ =>
          if is_continuation d
          then match r with
               | [] => [String c EmptyString]
               | h :: rest => String c h :: rest
               end
          else String c EmptyString :: r
      end
  end.

(** [len(v)] *)
Definition py_len (v : pyval) : result nat :=
  match v with
  | PyStr s => Ok (str_len s)
  | PyList l => Ok (length l)
  | _ => Raise (TypeError ("object of type '" +:+ py_typename v +:+ "' has no len()"))
  end.

(** The one-character strings that iterating over a string yields. *)
Definition str_chars (s : string) : list pyval := PyStr <$> split_chars s.

(** The items that [for x in v] visits. *)
Definition py_iter (v : pyval) : result (list pyval) :=
  match v with
  | PyStr s => Ok (str_chars s)
  | PyList l => Ok l
  | _ => Raise (TypeError ("'" +:+ py_typename v +:+ "' object is not iterable"))
  end.

(** [v[0]] *)
Definition py_getitem0 (v : pyval) : result pyval :=
  match v with
  | PyStr (String c t) => Ok (PyStr (str_take 1 (String c t)))
  | PyStr EmptyString => Raise (IndexError "string index out of range")
  | PyList (x :: _) => Ok x
  | PyList [] => Raise (IndexError "list index out of range")
  | _ => Raise (TypeError ("'" +:+ py_typename v +:+ "' object is not subscriptable"))
  end.

(** [s.startswith(p)] *)
Fixpoint str_startswith (p s : string) : bool :=
  match p, s with
  | EmptyString, _ => true
  | String _ _, EmptyString => false
  | String a p', String b s' => Ascii.eqb a b && str_startswith p' s'
  end.

(** [needle in hay] on two strings: [needle] occurs in [hay] at some
    position, compared character by character. *)
Fixpoint str_contains (needle hay : string) : bool :=
  str_startswith needle hay
  || match hay with
     | EmptyString => false
     | String _ t => str_contains needle t
     end.

(** [needle == v] for a string [needle]. *)
Definition py_eq_str (needle : string) (v : pyval) : bool :=
  match v with
  | PyStr s => String.eqb needle s
  | _ => false
  end.

(** [needle in v] for a string [needle]: substring test on a string,
    membership on a list, [TypeError] otherwise. *)
Definition py_in (needle : string) (v : pyval) : result bool :=
  match v with
  | PyStr s => Ok (str_contains needle s)
  | PyList l => Ok (existsb (py_eq_str needle) l)
  | _ => Raise (TypeError ("argument of type '" +:+ py_typename v +:+ "' is not iterable"))
  end.

(** ** Data model *)

(** A note of the remote service.  Each attribute is [None] when
    [hasattr] is false, and otherwise holds whatever the service put there. *)
Record Note : Type := mkNote {
  invitations : option pyval;
  signatures : option pyval
}.

(** One row of the input table. *)
Record Paper : Type := mkPaper {
  p_paper_id : string;
  p_forum_url : string
}.

(** The dict appended to [expanded_rows]. *)
Record ExpandedRow : Type := mkRow {
  paper_id : string;
  forum_url : string;
  reviewer_id : pyval
}.

(** ** Configuration *)

Definition INPUT_FILE : string := "papers/data_trim.csv".
Definition OUTPUT_FILE : string := "papers/data_final.csv".
(** [DELAY_SECONDS = 2.0]: the number of seconds and the text that an
    f-string prints for it. *)
Definition DELAY_SECONDS : Z := 2.
Definition DELAY_SECONDS_str : string := "2.0".
Definition SAMPLE_SIZE : Z := 150.

(** ** The reviewer extractor *)

(** The body of the [try] block of [extract_reviewer_id]. *)
Definition extract_reviewer_id_try (review : Note) : result pyval :=
  let sigs := default (PyList []) (signatures review) in
  rbind (if py_truthy sigs
         then rbind (py_len sigs) (fun n => Ok (Nat.ltb 0 n))
         else Ok false)
    (fun c => if c then py_getitem0 sigs else Ok PyNone).

(** [extract_reviewer_id]: [except Exception: return None]. *)
Definition extract_reviewer_id (review : Note) : pyval :=
  match extract_reviewer_id_try review with
  | Ok v => v
  | Raise _ => PyNone
  end.

(** ** The filter of the review fetcher *)

Definition MARKER : string := "Official_Review".

(** The inner loop [for invitation in invitations]: [Ok true] when the
    [break] is reached (the note was appended), [Ok false] when the loop
    runs to its end. *)
Fixpoint scan_invitations (invs : list pyval) : result bool :=
  match invs with
  | [] => Ok false
  | invitation :: rest =>
      match py_in MARKER invitation with
      | Raise e => Raise e
      | Ok true => Ok true
      | Ok false => scan_invitations rest
      end
  end.

(** The outer loop [for note in notes], with the list [reviews] built so
    far. *)
Fixpoint collect_reviews (notes : list Note) (reviews : list Note)
  : result (list Note) :=
  match notes with
  | [] => Ok reviews
  | note :: rest =>
      let invs := default (PyList []) (invitations note) in
      match rbind (py_iter invs) scan_invitations with
      | Raise e => Raise e
      | Ok true => collect_reviews rest (reviews ++ [note])
      | Ok false => collect_reviews rest reviews
      end
  end.

(** ** The world outside the program *)

(** What the program does to the console, the clock and the file system,
    in the order it does it. *)
Inductive event : Type :=
  | Print (text : string) (ending : string)
  | Sleep (seconds : Z)
  | Mkdir (path : string)
  | OpenWrite (path : string)
  | WriteHeader (fieldnames : list string)
  | WriteRows (rows : list ExpandedRow).

(** How reading [INPUT_FILE] ends. *)
Inductive InputOutcome : Type :=
  | InputRows (papers : list Paper)
  | InputNotFound
  | InputError (e : PyException).

(** Which step of writing [OUTPUT_FILE] raises, if any. *)
Inductive FsOutcome : Type :=
  | FsOk
  | MkdirFails (e : PyException)
  | OpenFails (e : PyException)
  | WriteFails (e : PyException).

(** The two libraries that the program calls and that are not part of the
    repository: the OpenReview client and Python's [random] module.

    [get_all_notes] either returns the notes of a forum or raises, and may
    change the state of the service.  [random_sample] is
    [random.sample(population, k)] on the process-global generator, whose
    state it reads and advances. *)
Class Platform : Type := {
  service : Type;
  get_all_notes : service -> string -> result (list Note) * service;
  generator : Type;
  random_sample :
    forall {A : Type}, generator -> list A -> Z -> result (list A) * generator
}.

(** The documented contract of [random.sample]: it returns a list of [k]
    elements chosen from the population without replacement (so the result
    is, up to order, a sub-multiset of the population), and raises
    [ValueError] when [k] is negative or larger than the population. *)
Class RandomSampleLaws `{Platform} : Prop := {
  random_sample_ok :
    forall (A : Type) (g : generator) (population : list A) (k : Z),
      0 <= k <= Z.of_nat (length population) ->
      exists res, fst (random_sample g population k) = Ok res
                  /\ length res = Z.to_nat k
                  /\ res ⊆+ population;
  random_sample_error :
    forall (A : Type) (g : generator) (population : list A) (k : Z),
      ~ (0 <= k <= Z.of_nat (length population)) ->
      exists msg, fst (random_sample g population k) = Raise (ValueError msg)
}.

Section Pipeline.

Context `{Platform}.

Record World : Type := mkWorld {
  connect_outcome : option PyException;
  input_outcome : InputOutcome;
  fs_outcome : FsOutcome;
  svc : service;
  gen : generator;
  trace : list event
}.

(** Programs that act on the world. *)
Definition M (A : Type) : Type := World -> A * World.

#[export] Instance M_ret : MRet M := fun A a w => (a, w).
#[export] Instance M_bind : MBind M :=
  fun A B k m w => let '(a, w') := m w in k a w'.

Definition emit (e : event) : M unit :=
  fun w => (tt, mkWorld (connect_outcome w) (input_outcome w) (fs_outcome w)
                        (svc w) (gen w) (trace w ++ [e])).

Definition nl : string := String (Ascii.ascii_of_nat 10) EmptyString.

(** [print(text)] and [print(text, end=ending)] *)
Definition print (text : string) : M unit := emit (Print text nl).
Definition print_end (text ending : string) : M unit := emit (Print text ending).
Definition sleep (seconds : Z) : M unit := emit (Sleep seconds).

(** [client.get_all_notes(forum=paper_id)] *)
Definition call_get_all_notes (paper_id : string) : M (result (list Note)) :=
  fun w => let '(r, s) := get_all_notes (svc w) paper_id in
           (r, mkWorld (connect_outcome w) (input_outcome w) (fs_outcome w)
                       s (gen w) (trace w)).

(** [random.sample(population, k)] *)
Definition call_random_sample {A} (population : list A) (k : Z)
  : M (result (list A)) :=
  fun w => let '(r, g) := random_sample (gen w) population k in
           (r, mkWorld (connect_outcome w) (input_outcome w) (fs_outcome w)
                       (svc w) g (trace w)).

Definition get_world : M World := fun w => (w, w).

(** ** The review fetcher *)

(** [str(e)[:80]] *)
Definition truncate80 (msg : string) : string := str_take 80 msg.

Definition fetch_error_line (paper_id : string) (e : PyException) : string :=
  "  [X] Error for " +:+ paper_id +:+ ": " +:+ truncate80 (exc_msg e).

(** [fetch_reviews(client, paper_id)]; the client is the service of the
    world.  The [try] block is the call and the two loops; the handler
    prints and returns the empty list. *)
Definition fetch_reviews (paper_id : string) : M (list Note) :=
  r ← call_get_all_notes paper_id;
  match rbind r (fun notes => collect_reviews notes []) with
  | Ok reviews => mret reviews
  | Raise e => print (fetch_error_line paper_id e);; mret []
  end.

(** ** The expansion engine *)

(** The variables that the loop of [main] updates. *)
Record LoopState : Type := mkLoop {
  expanded_rows : list ExpandedRow;
  papers_with_reviews : nat;
  total_reviews : nat;
  errors : nat
}.

(** [for review in reviews], on [expanded_rows] and [review_count]. *)
Fixpoint expand_reviews (pid url : string) (reviews : list Note)
    (rows : list ExpandedRow) (review_count : nat) : list ExpandedRow * nat :=
  match reviews with
  | [] => (rows, review_count)
  | review :: rest =>
      let rid := extract_reviewer_id review in
      if py_truthy rid
      then expand_reviews pid url rest (rows ++ [mkRow pid url rid]) (S review_count)
      else expand_reviews pid url rest rows review_count
  end.

(** One iteration of [for idx, paper in enumerate(papers, 1)]; [total] is
    [len(papers)]. *)
Definition process_paper (total idx : nat) (paper : Paper) (st : LoopState)
  : M LoopState :=
  let pid := p_paper_id paper in
  let url := p_forum_url paper in
  print_end ("[" +:+ pretty idx +:+ "/" +:+ pretty total +:+ "] Fetching: " +:+ pid) " ";;
  reviews ← fetch_reviews pid;
  st' ← match reviews with
        | _ :: _ =>
            let '(rows, review_count) :=
              expand_reviews pid url reviews (expanded_rows st) 0 in
            if Nat.ltb 0 review_count
            then print ("[OK] " +:+ pretty review_count +:+ " reviews");;
                 mret (mkLoop rows (S (papers_with_reviews st))
                              (total_reviews st + review_count) (errors st))
            else print "[OK] 0 reviews (no valid reviewer IDs)";;
                 mret (mkLoop rows (papers_with_reviews st)
                              (total_reviews st) (errors st))
        | [] =>
            if Nat.eqb (length reviews) 0
            then print "[OK] 0 reviews";; mret st
            else mret (mkLoop (expanded_rows st) (papers_with_reviews st)
                              (total_reviews st) (S (errors st)))
        end;
  (if Nat.ltb idx total then sleep DELAY_SECONDS else mret tt);;
  mret st'.

Fixpoint main_loop (total idx : nat) (papers : list Paper) (st : LoopState)
  : M LoopState :=
  match papers with
  | [] => mret st
  | paper :: rest =>
      st' ← process_paper total idx paper st;
      main_loop total (S idx) rest st'
  end.

(** The counters of the end-of-run summary. *)
Record RunStats : Type := mkStats {
  rs_processed : nat;
  rs_papers_with_reviews : nat;
  rs_total_reviews : nat;
  rs_errors : nat
}.

Definition run_stats (papers : list Paper) (st : LoopState) : RunStats :=
  mkStats (length papers) (papers_with_reviews st) (total_reviews st) (errors st).

Definition print_summary (rs : RunStats) : M unit :=
  print (nl +:+ "[*] Summary:");;
  print ("    Papers processed: " +:+ pretty (rs_processed rs));;
  print ("    Papers with reviews: " +:+ pretty (rs_papers_with_reviews rs));;
  print ("    Total reviews collected: " +:+ pretty (rs_total_reviews rs));;
  print ("    Errors encountered: " +:+ pretty (rs_errors rs)).

(** The expansion engine: the loop over all papers from the initial
    counters, and the summary. *)
Definition expand_all (papers : list Paper) : M (LoopState * RunStats) :=
  st ← main_loop (length papers) 1 papers (mkLoop [] 0 0 0);
  let rs := run_stats papers st in
  print_summary rs;;
  mret (st, rs).

(** ** The sampler *)

(** The sampling step of [main], for a target size [target]
    ([SAMPLE_SIZE] in the program).  [Raise] is an exception of
    [random.sample], which [main] does not catch. *)
Definition sampler (target : Z) (rows : list ExpandedRow)
  : M (result (list ExpandedRow)) :=
  let n := Z.of_nat (length rows) in
  let sample_count := Z.min target n in
  if Z.ltb target n
  then print (nl +:+ "[*] Randomly sampling " +:+ pretty sample_count
              +:+ " rows from " +:+ pretty n +:+ " total...");;
       call_random_sample rows sample_count
  else print (nl +:+ "[WARN] Only " +:+ pretty n
              +:+ " rows available (less than " +:+ pretty target +:+ ")");;
       mret (Ok rows).

(** ** The output writer *)

Definition FIELDNAMES : list string := ["paper_id"; "forum_url"; "reviewer_id"].

(** The [try] block that writes [OUTPUT_FILE]: [Raise] when one of its
    steps raises. *)
Definition write_rows_try (sampled_rows : list ExpandedRow) : M (result unit) :=
  w ← get_world;
  emit (Mkdir "papers");;
  match fs_outcome w with
  | MkdirFails e => mret (Raise e)
  | fs =>
      emit (OpenWrite OUTPUT_FILE);;
      match fs with
      | OpenFails e => mret (Raise e)
      | _ =>
          emit (WriteHeader FIELDNAMES);;
          emit (WriteRows sampled_rows);;
          match fs with
          | WriteFails e => mret (Raise e)
          | _ =>
              print ("[OK] Successfully wrote " +:+ pretty (length sampled_rows)
                     +:+ " rows to " +:+ OUTPUT_FILE);;
              mret (Ok tt)
          end
      end
  end.

(** ** The program *)

(** The first line of the report of a run that collected no row. *)
Definition failure_line : string :=
  nl +:+ "[ERROR] No reviews were collected. Cannot create output file.".

Definition banner : string := String.concat "" (replicate 60 "=").

(** The end of [main], from the test [if not expanded_rows] on: the
    failure report, or the sampler and the writer. *)
Definition finish_run (rows : list ExpandedRow) : M (result unit) :=
  match rows with
  | [] =>
      print failure_line;;
      print "        Possible reasons:";;
      print "        - Papers don't have official reviews yet";;
      print "        - Rate limiting is preventing access";;
      print "        - Wrong invitation pattern for these papers";;
      mret (Ok tt)
  | _ :: _ =>
      s ← sampler SAMPLE_SIZE rows;
      match s with
      | Raise e => mret (Raise e)
      | Ok sampled_rows =>
          print (nl +:+ "[*] Writing output file: " +:+ OUTPUT_FILE);;
          r ← write_rows_try sampled_rows;
          match r with
          | Raise e =>
              print ("[ERROR] Error writing output file: " +:+ exc_msg e);;
              mret (Ok tt)
          | Ok _ =>
              print (nl +:+ banner);;
              print "[SUCCESS] Done!";;
              print banner;;
              mret (Ok tt)
          end
      end
  end.

(** What [main] prints between loading the papers and the loop. *)
Definition announce (papers : list Paper) : M unit :=
  print ("[OK] Loaded " +:+ pretty (length papers) +:+ " papers");;
  print (nl +:+ "[*] Fetching reviews from OpenReview API...");;
  print ("    (Rate limit: " +:+ DELAY_SECONDS_str +:+ "s delay between requests)");;
  print ("    This will take approximately "
         +:+ pretty (Z.of_nat (length papers) * DELAY_SECONDS / 60)
         +:+ " minutes..." +:+ nl).

(** [main] once the papers are loaded: the loop, the summary and the end
    of the run. *)
Definition main_from_papers (papers : list Paper) : M (result unit) :=
  announce papers;;
  '(st, _) ← expand_all papers;
  finish_run (expanded_rows st).

Definition main : M (result unit) :=
  print banner;;
  print "OpenReview Review Fetcher";;
  print banner;;
  print (nl +:+ "[*] Connecting to OpenReview API...");;
  w ← get_world;
  match connect_outcome w with
  | Some e =>
      print ("[ERROR] Failed to connect to OpenReview API: " +:+ exc_msg e);;
      mret (Ok tt)
  | None =>
      print "[OK] Connected successfully";;
      print (nl +:+ "[*] Reading input file: " +:+ INPUT_FILE);;
      match input_outcome w with
      | InputNotFound =>
          print ("[ERROR] Input file '" +:+ INPUT_FILE +:+ "' not found!");;
          mret (Ok tt)
      | InputError e =>
          print ("[ERROR] Error reading input file: " +:+ exc_msg e);;
          mret (Ok tt)
      | InputRows papers => main_from_papers papers
      end
  end.

End Pipeline.

(** ** A scripted platform

    A remote service that answers from a fixed table (a forum that is not
    in the table has no notes), and a random source whose state is a
    counter: it hands out the first [k] elements of the population, read
    forwards when the counter is even and backwards when it is odd. *)

Definition table_get_all_notes (table : list (string * result (list Note)))
    (pid : string) : result (list Note) * list (string * result (list Note)) :=
  (match List.find (fun entry => String.eqb (fst entry) pid) table with
   | Some entry => snd entry
   | None => Ok []
   end, table).

Definition counter_sample {A : Type} (g : nat) (population : list A) (k : Z)
  : result (list A) * nat :=
  if Z.leb 0 k && Z.leb k (Z.of_nat (length population))
  then (Ok (take (Z.to_nat k) (if Nat.even g then population else reverse population)),
        S g)
  else (Raise (ValueError "Sample larger than population or is negative"), g).

Definition scripted : Platform := {|
  service := list (string * result (list Note));
  get_all_notes := table_get_all_notes;
  generator := nat;
  random_sample := @counter_sample
|}.

Definition scripted_world (table : list (string * result (list Note)))
    (g : nat) (tr : list event) : @World scripted :=
  @mkWorld scripted None (InputRows []) FsOk table g tr.

(** ** The fetcher's filter, in the words of the specification *)

Definition as_str (v : pyval) : option string :=
  match v with
  | PyStr s => Some s
  | _ => None
  end.

Fixpoint as_strs (l : list pyval) : option (list string) :=
  match l with
  | [] => Some []
  | v :: rest =>
      match as_str v, as_strs rest with
      | Some s, Some ss => Some (s :: ss)
      | _, _ => None
      end
  end.

(** The invitation labels of a note whose [invitations] attribute is
    missing or is a list of strings. *)
Definition as_labels (inv : option pyval) : option (list string) :=
  match inv with
  | None => Some []
  | Some (PyList l) => as_strs l
  | Some _ => None
  end.

Definition well_formed_note (n : Note) : Prop :=
  is_Some (as_labels (invitations n)).

Definition note_labels (n : Note) : list string :=
  default [] (as_labels (invitations n)).

(** [c.lower()] on an ASCII character. *)
Definition ascii_lower (c : Ascii.ascii) : Ascii.ascii :=
  let n := Ascii.nat_of_ascii c in
  if Nat.leb 65 n && Nat.leb n 90 then Ascii.ascii_of_nat (n + 32) else c.

Fixpoint str_lower (s : string) : string :=
  match s with
  | EmptyString => EmptyString
  | String c t => String (ascii_lower c) (str_lower t)
  end.

(** In the words of the specification: a label is an official-review
    label when it contains the marker token as a case- and
    position-insensitive substring. *)
Definition official_review_label_spec (label : string) : bool :=
  str_contains (str_lower MARKER) (str_lower label).

(** In the words of the specification: the notes whose label set holds
    an official-review label, in the order of the service. *)
Definition fetch_reviews_spec (notes : list Note) : list Note :=
  List.filter (fun n => existsb official_review_label_spec (note_labels n)) notes.

(** The same selection with the marker compared case-sensitively. *)
Definition official_reviews (notes : list Note) : list Note :=
  List.filter (fun n => existsb (str_contains MARKER) (note_labels n)) notes.

(** ** The expansion engine, in the words of the specification *)

(** In the words of the specification: a review yields a reviewer
    identity when the extractor's result is not absent. *)
Definition resolvable_spec (review : Note) : bool :=
  match extract_reviewer_id review with
  | PyNone => false
  | _ => true
  end.

(** The reviews for which the program appends a row: the extractor's
    result passes the test [if reviewer_id:]. *)
Definition yields_row (review : Note) : bool :=
  py_truthy (extract_reviewer_id review).

(** What the program does to the file system. *)
Definition is_write (e : event) : bool :=
  match e with
  | Mkdir _ | OpenWrite _ | WriteHeader _ | WriteRows _ => true
  | Print _ _ | Sleep _ => false
  end.

(** A program that leaves the file system and the random generator alone:
    all it adds to the trace is printing and sleeping. *)
Definition quiet `{Platform} {A : Type} (m : M A) : Prop :=
  forall w, gen (snd (m w)) = gen w
            /\ exists evs, trace (snd (m w)) = trace w ++ evs
                           /\ Forall (fun e => is_write e = false) evs.

(** ** Sample data *)

Definition review_label : string :=
  "ICLR.cc/2024/Conference/Submission1/-/Official_Review".

Definition review_of (sig : string) : Note :=
  mkNote (Some (PyList [PyStr review_label])) (Some (PyList [PyStr sig])).

Definition note_comment : Note :=
  mkNote (Some (PyList [PyStr "ICLR.cc/2024/Conference/Submission1/-/Official_Comment"]))
         (Some (PyList [PyStr "Authors"])).

(** Two labels of the same note hold the marker. *)
Definition note_two_labels : Note :=
  mkNote (Some (PyList [PyStr "ICLR.cc/2024/Conference/-/Edit";
                        PyStr review_label;
                        PyStr "Venue/Official_Review/Revision"]))
         (Some (PyList [PyStr "R7"])).

(** The marker in lower case. *)
Definition note_lower : Note :=
  mkNote (Some (PyList [PyStr "ICLR.cc/2024/Conference/Submission1/-/official_review"]))
         (Some (PyList [PyStr "R9"])).

(** A note whose [invitations] attribute is not iterable. *)
Definition note_bad_invitations : Note :=
  mkNote (Some (PyInt 5)) (Some (PyList [PyStr "R5"])).

Definition timeout_error : PyException :=
  mkExc "OpenReviewException"
    "HTTPSConnectionPool(host='api2.openreview.net', port=443): Read timed out. (read timeout=30)".

Definition sample_table : list (string * result (list Note)) :=
  [ ("P1", Ok [review_of "R1"; note_comment; review_of "R2"]);
    ("P2", Ok []);
    ("P3", Raise timeout_error);
    ("P4", Ok [note_lower]);
    ("P5", Ok [review_of ""]);
    ("P6", Ok [review_of "R1"; note_bad_invitations]);
    ("P7", Ok [note_two_labels]) ].

Definition sample_world : @World scripted := scripted_world sample_table 0 [].

Definition paper (pid : string) : Paper := mkPaper pid ("https://openreview.net/forum?id=" +:+ pid).

Definition sample_rows : list ExpandedRow :=
  [ mkRow "P1" "u1" (PyStr "R1"); mkRow "P1" "u1" (PyStr "R2");
    mkRow "P8" "u8" (PyStr "R3") ].

(** A world that differs from [sample_world] in all but the generator. *)
Definition other_world : @World scripted :=
  @mkWorld scripted (Some timeout_error) InputNotFound (OpenFails timeout_error)
           [] 0%nat [Print "earlier output" nl; Sleep 2].

(** ** Observations on traces *)

Definition is_sleep (e : event) : bool :=
  match e with
  | Sleep _ => true
  | _ => false
  end.

Definition is_print (e : event) : bool :=
  match e with
  | Print _ _ => true
  | _ => false
  end.

(** A program that pauses exactly [k] times, each time for
    [DELAY_SECONDS]. *)
Definition pauses `{Platform} {A : Type} (m : M A) (k : nat) : Prop :=
  forall w, exists evs, trace (snd (m w)) = trace w ++ evs
                        /\ List.filter is_sleep evs = replicate k (Sleep DELAY_SECONDS).

(** ** More sample data *)

(** A world whose file system refuses to create the output directory. *)
Definition readonly_world : @World scripted :=
  @mkWorld scripted None (InputRows [])
           (MkdirFails (mkExc "PermissionError" "[Errno 13] Permission denied: 'papers'"))
           sample_table 0%nat [].

Definition many_rows : list ExpandedRow :=
  replicate 151 (mkRow "P1" "u1" (PyStr "R1")).

(** ** The sampling scripts [V2/sampler.py] and [data/sampling/data_sampler.py]

    Both scripts are straight-line calls into pandas.  What they need of
    pandas is taken as a parameter: the type of the cells of a table, with
    the cell of a [str], and
    [DataFrame.sample(n=..., random_state=...)] on the rows of a table,
    which draws from a generator made afresh from [random_state] and so is
    a function of its arguments. *)
Class Pandas : Type := {
  cell : Type;
  str_cell : string -> cell;
  pd_sample : forall {A : Type}, list A -> Z -> Z -> result (list A)
}.

(** The documented contract of [DataFrame.sample] without replacement:
    [n] rows from distinct positions, and [ValueError] when the table has
    fewer than [n] rows. *)
Class PandasLaws `{Pandas} : Prop := {
  pd_sample_ok :
    forall (A : Type) (l : list A) (n random_state : Z),
      0 <= n <= Z.of_nat (length l) ->
      exists res, pd_sample l n random_state = Ok res
                  /\ length res = Z.to_nat n
                  /\ res ⊆+ l;
  pd_sample_too_large :
    forall (A : Type) (l : list A) (n random_state : Z),
      Z.of_nat (length l) < n ->
      pd_sample l n random_state
      = Raise (ValueError "Cannot take a larger sample than population when 'replace=False'")
}.

Section Scripts.

Context `{Pandas}.

(** A table: its column labels in order, and its rows, each a finite map
    from column label to cell.  The index is left out: the scripts drop it
    ([index=False], [ignore_index=True]). *)
Record DataFrame : Type := mkFrame {
  df_columns : list string;
  df_rows : list (gmap string cell)
}.

(** What a script does to the outside, in order. *)
Inductive script_event : Type :=
  | ToCsv (path : string) (df : DataFrame)
  | Printed (text : string).

(** The files a script finds, and the files it may not write. *)
Record ScriptEnv : Type := mkEnv {
  read_csv : string -> result DataFrame;
  to_csv_error : string -> option PyException
}.

(** A script: how it ends, and what it did until then. *)
Definition Script (A : Type) : Type := result A * list script_event.

Definition sbind {A B : Type} (m : Script A) (k : A -> Script B) : Script B :=
  match m with
  | (Ok a, evs) => let '(r, evs') := k a in (r, evs ++ evs')
  | (Raise e, evs) => (Raise e, evs)
  end.

Definition lift {A : Type} (r : result A) : Script A := (r, []).

(** [df.sample(n=n, random_state=random_state)] *)
Definition df_sample (df : DataFrame) (n random_state : Z) : result DataFrame :=
  rbind (pd_sample (df_rows df) n random_state)
        (fun rs => Ok (mkFrame (df_columns df) rs)).

(** [df[name] = v] for a scalar [v]: the column is overwritten where it
    is, or added as the last one. *)
Definition df_setitem (name : string) (v : cell) (df : DataFrame) : DataFrame :=
  mkFrame (if bool_decide (name ∈ df_columns df)
           then df_columns df
           else df_columns df ++ [name])
          ((fun r => <[name := v]> r) <$> df_rows df).

(** [pd.concat([a, b], ignore_index=True)], a parameter as well: pandas
    chooses the columns of the result and converts cells to the type it
    gives each column. *)
Class PandasConcat : Type := {
  pd_concat : DataFrame -> DataFrame -> DataFrame
}.

(** What is used of its contract: the result has the rows of the first
    table and then those of the second, so as many rows as both. *)
Class PandasConcatLaws `{PandasConcat} : Prop := {
  pd_concat_length :
    forall a b, length (df_rows (pd_concat a b))
                = (length (df_rows a) + length (df_rows b))%nat
}.

Context `{PandasConcat}.

(** [df.to_csv(path, index=False)] *)
Definition to_csv (env : ScriptEnv) (path : string) (df : DataFrame) : Script unit :=
  (match to_csv_error env path with
   | Some e => Raise e
   | None => Ok tt
   end, [ToCsv path df]).

Definition py_print (text : string) : Script unit := (Ok tt, [Printed text]).

(** The three bytes of the check mark that [sampler.py] prints. *)
Definition check_mark : string :=
  String (Ascii.ascii_of_nat 226)
    (String (Ascii.ascii_of_nat 156) (String (Ascii.ascii_of_nat 133) EmptyString)).

(** [V2/sampler.py] *)
Definition sampler_py (env : ScriptEnv) : Script unit :=
  sbind (lift (read_csv env "ICLR_2024_papers.csv")) (fun df_2024 =>
  sbind (lift (read_csv env "ICLR_2025_papers.csv")) (fun df_2025 =>
  sbind (lift (df_sample df_2024 100 42)) (fun sample_2024 =>
  sbind (lift (df_sample df_2025 100 42)) (fun sample_2025 =>
  let combined_df := pd_concat sample_2024 sample_2025 in
  sbind (to_csv env "data.csv" combined_df) (fun _ =>
  py_print (check_mark +:+ " data.csv created with 200 rows (100 from each file)")))))).

(** [data/sampling/data_sampler.py] *)
Definition data_sampler_py (env : ScriptEnv) : Script unit :=
  sbind (lift (read_csv env "original_data_200.csv")) (fun df =>
  sbind (lift (df_sample df 150 100)) (fun df_sampled =>
  let df_sampled := df_setitem "bias_result" (str_cell "") df_sampled in
  to_csv env "sampled_data.csv" df_sampled)).

End Scripts.

(** A pandas whose cells are strings and whose sample is the first [n]
    rows. *)
Definition first_rows {A : Type} (l : list A) (n random_state : Z) : result (list A) :=
  if Z.leb 0 n && Z.leb n (Z.of_nat (length l))
  then Ok (take (Z.to_nat n) l)
  else Raise (ValueError "Cannot take a larger sample than population when 'replace=False'").

Definition string_pandas : Pandas := {|
  cell := string;
  str_cell := fun s => s;
  pd_sample := @first_rows
|}.

Definition frame_of (n : nat) (label : string) : @DataFrame string_pandas :=
  @mkFrame string_pandas ["paper_id"; "title"]
           (replicate n ({[ "paper_id" := label ]} : gmap string string)).

(** A concatenation that appends the rows and keeps the columns of the
    first table. *)
Definition append_rows : @PandasConcat string_pandas := {|
  pd_concat := fun a b =>
    @mkFrame string_pandas (df_columns a) (df_rows a ++ df_rows b)
|}.

Definition sample_env : @ScriptEnv string_pandas :=
  @mkEnv string_pandas
    (fun path =>
       if String.eqb path "ICLR_2024_papers.csv" then Ok (frame_of 120 "a")
       else if String.eqb path "ICLR_2025_papers.csv" then Ok (frame_of 100 "b")
       else if String.eqb path "original_data_200.csv" then Ok (frame_of 200 "c")
       else Raise (mkExc "FileNotFoundError" "[Errno 2] No such file or directory"))
    (fun _ => None).

(** The same files, with too few rows in the second and in the third. *)
Definition short_env : @ScriptEnv string_pandas :=
  @mkEnv string_pandas
    (fun path =>
       if String.eqb path "ICLR_2024_papers.csv" then Ok (frame_of 120 "a")
       else if String.eqb path "ICLR_2025_papers.csv" then Ok (frame_of 99 "b")
       else if String.eqb path "original_data_200.csv" then Ok (frame_of 149 "c")
       else Raise (mkExc "FileNotFoundError" "[Errno 2] No such file or directory"))
    (fun _ => None).

(** ** Facts about strings and Python values *)

Lemma str_startswith_spec (p s : string) :
  str_startswith p s = true <-> exists post, s = p +:+ post.
Proof.
  revert s. induction p as [|a p IH]; intros s; simpl.
  - split; [intros _; now exists s | reflexivity].
  - destruct s as [|b s].
    + split; [discriminate | intros [post Hp]; discriminate].
    + rewrite andb_true_iff, Ascii.eqb_eq, IH. split.
      * intros [-> [post ->]]. now exists post.
      * intros [post Hp]. injection Hp as -> ->. split; [reflexivity | now exists post].
Qed.

Lemma str_contains_spec (needle hay : string) :
  str_contains needle hay = true <-> exists pre post, hay = pre +:+ needle +:+ post.
Proof.
  induction hay as [|c hay IH]; simpl.
  - rewrite orb_false_r, str_startswith_spec. split.
    + intros [post Hp]. now exists EmptyString, post.
    + intros [pre [post Hp]]. destruct pre as [|a pre]; [|discriminate].
      now exists post.
  - rewrite orb_true_iff, str_startswith_spec, IH. split.
    + intros [[post Hp] | [pre [post Hp]]].
      * now exists EmptyString, post.
      * exists (String c pre), post. simpl. now rewrite Hp.
    + intros [pre [post Hp]]. destruct pre as [|a pre]; simpl in Hp.
      * left. now exists post.
      * right. injection Hp as _ Hp. now exists pre, post.
Qed.

Lemma as_strs_Some (l : list pyval) (ls : list string) :
  as_strs l = Some ls -> l = PyStr <$> ls.
Proof.
  revert ls. induction l as [|v l IH]; intros ls; simpl.
  - now intros [= <-].
  - destruct v; simpl; try discriminate.
    destruct (as_strs l) as [ss|]; [|discriminate].
    intros [= <-]. simpl. now rewrite (IH ss).
Qed.

Lemma as_labels_Some (inv : option pyval) (ls : list string) :
  as_labels inv = Some ls -> default (PyList []) inv = PyList (PyStr <$> ls).
Proof.
  destruct inv as [v|]; simpl.
  - destruct v; try discriminate. intros Hl. now rewrite (as_strs_Some _ _ Hl).
  - now intros [= <-].
Qed.

Lemma py_truthy_not_absent (v : pyval) :
  py_truthy v = true -> v <> PyNone /\ v <> PyStr "".
Proof. intros Ht. split; intros ->; discriminate Ht. Qed.

(** ** Facts about the fetcher's loops *)

Lemma scan_invitations_labels (ls : list string) :
  scan_invitations (PyStr <$> ls) = Ok (existsb (str_contains MARKER) ls).
Proof.
  induction ls as [|l ls IH]; simpl; [reflexivity|].
  destruct (str_contains MARKER l); simpl; [reflexivity | exact IH].
Qed.

Lemma collect_reviews_well_formed (notes reviews : list Note) :
  Forall well_formed_note notes ->
  collect_reviews notes reviews = Ok (reviews ++ official_reviews notes).
Proof.
  intros Hwf. revert reviews.
  induction Hwf as [|n notes [ls Hls] _ IH]; intros reviews; simpl.
  - now rewrite app_nil_r.
  - unfold note_labels. rewrite (as_labels_Some _ _ Hls), Hls. simpl.
    rewrite scan_invitations_labels.
    destruct (existsb (str_contains MARKER) ls); rewrite IH.
    + now rewrite <- app_assoc.
    + reflexivity.
Qed.

(** Whatever happens, the notes kept so far stay, and what is added is
    taken from the notes in their order, each position at most once. *)
Lemma collect_reviews_sublist (notes reviews out : list Note) :
  collect_reviews notes reviews = Ok out ->
  exists added, out = reviews ++ added /\ added `sublist_of` notes.
Proof.
  revert reviews. induction notes as [|n notes IH]; intros reviews; simpl.
  - intros [= <-]. exists []. now rewrite app_nil_r.
  - destruct (rbind _ scan_invitations) as [[|]|e]; [| |discriminate]; intros Hc.
    + destruct (IH _ Hc) as [added [-> Hs]]. exists (n :: added).
      rewrite <- app_assoc. split; [reflexivity | now constructor].
    + destruct (IH _ Hc) as [added [-> Hs]]. exists added.
      split; [reflexivity | now constructor].
Qed.

Lemma scan_invitations_stops (pre post : list pyval) (label : string) :
  scan_invitations pre = Ok false ->
  str_contains MARKER label = true ->
  scan_invitations (pre ++ PyStr label :: post) = Ok true.
Proof.
  intros Hpre Hl. induction pre as [|v pre IH]; simpl in *.
  - now rewrite Hl.
  - destruct (py_in MARKER v) as [[|]|e]; try discriminate. now apply IH.
Qed.

Lemma str_take_len (n : nat) (s : string) :
  str_len (str_take n s) = Nat.min n (str_len s).
Proof.
  revert n. induction s as [|c s IH]; intros n.
  - now destruct n.
  - cbn [str_take str_len]. destruct (is_continuation c) eqn:Hc.
    + cbn [str_len]. rewrite Hc, IH. reflexivity.
    + destruct n as [|n]; [reflexivity|].
      cbn [str_len]. rewrite Hc, IH. reflexivity.
Qed.

(** [s[:n]] is a prefix of [s] that ends where a character ends. *)
Lemma str_take_prefix (n : nat) (s : string) :
  exists rest, s = str_take n s +:+ rest
               /\ (rest = EmptyString
                   \/ exists c t, rest = String c t /\ is_continuation c = false).
Proof.
  revert n. induction s as [|c s IH]; intros n.
  - exists EmptyString. split; [reflexivity | now left].
  - cbn [str_take]. destruct (is_continuation c) eqn:Hc.
    + destruct (IH n) as [rest [Hrest Hcut]]. exists rest. split; [|exact Hcut].
      change (String c s = String c (str_take n s +:+ rest)). now f_equal.
    + destruct n as [|n].
      * exists (String c s). split; [reflexivity|]. right. now exists c, s.
      * destruct (IH n) as [rest [Hrest Hcut]]. exists rest. split; [|exact Hcut].
        change (String c s = String c (str_take n s +:+ rest)). now f_equal.
Qed.

(** ** The review fetcher and the reviewer extractor *)

Section FetcherFacts.

Context `{Platform}.

Lemma fetch_reviews_unfold (pid : string) (w : World) :
  fetch_reviews pid w =
  let w1 := mkWorld (connect_outcome w) (input_outcome w) (fs_outcome w)
                    (snd (get_all_notes (svc w) pid)) (gen w) (trace w) in
  match rbind (fst (get_all_notes (svc w) pid))
              (fun notes => collect_reviews notes []) with
  | Ok reviews => (reviews, w1)
  | Raise e =>
      ([], mkWorld (connect_outcome w) (input_outcome w) (fs_outcome w)
                   (snd (get_all_notes (svc w) pid)) (gen w)
                   (trace w ++ [Print (fetch_error_line pid e) nl]))
  end.
Proof.
  unfold fetch_reviews, mbind, M_bind, call_get_all_notes.
  destruct (get_all_notes (svc w) pid) as [r s]; simpl.
  destruct (rbind r _); reflexivity.
Qed.

(** C1 (amended): when the service returns notes whose [invitations]
    attribute is missing or a list of strings, [fetch_reviews] returns
    exactly the notes, in the order of the service, one of whose labels
    holds [Official_Review] as a substring at some position, compared
    case-sensitively; a label holds it exactly when the label is some
    prefix, the marker, and some suffix. *)
Theorem fetch_reviews_filters (pid : string) (w : World) (notes : list Note) :
  fst (get_all_notes (svc w) pid) = Ok notes ->
  Forall well_formed_note notes ->
  fst (fetch_reviews pid w) = official_reviews notes
  /\ (forall label, str_contains MARKER label = true
                    <-> exists pre post, label = pre +:+ "Official_Review" +:+ post).
Proof.
  intros Hget Hwf. split.
  - rewrite fetch_reviews_unfold, Hget. simpl.
    now rewrite (collect_reviews_well_formed notes [] Hwf).
  - intros label. apply str_contains_spec.
Qed.

(** C10: every position of the service's answer is kept at most once (the
    result is a sublist of the answer), and the scan of a note's labels
    stops at the first label that holds the marker: what follows it is not
    looked at. *)
Theorem fetch_reviews_at_most_once (pid : string) (w : World) (notes : list Note) :
  fst (get_all_notes (svc w) pid) = Ok notes ->
  fst (fetch_reviews pid w) `sublist_of` notes
  /\ (forall pre label post,
        scan_invitations pre = Ok false ->
        str_contains MARKER label = true ->
        scan_invitations (pre ++ PyStr label :: post) = Ok true).
Proof.
  intros Hget. split.
  - rewrite fetch_reviews_unfold, Hget. simpl.
    destruct (collect_reviews notes []) as [out|e] eqn:Hc; simpl.
    + destruct (collect_reviews_sublist _ _ _ Hc) as [added [-> Hs]]. exact Hs.
    + apply sublist_nil_l.
  - intros pre label post. apply scan_invitations_stops.
Qed.

(** C7: when contacting the service or reading its answer raises,
    [fetch_reviews] returns the empty list and prints one line that holds
    the paper identifier and the first 80 characters of the message: a
    prefix of the message that has 80 characters, or all of them when
    there are fewer, and that ends where a character ends. *)
Theorem fetch_reviews_catches (pid : string) (w : World) (e : PyException) :
  rbind (fst (get_all_notes (svc w) pid)) (fun notes => collect_reviews notes [])
    = Raise e ->
  fst (fetch_reviews pid w) = []
  /\ trace (snd (fetch_reviews pid w))
     = trace w ++ [Print ("  [X] Error for " +:+ pid +:+ ": " +:+ truncate80 (exc_msg e)) nl]
  /\ str_len (truncate80 (exc_msg e)) = Nat.min 80 (str_len (exc_msg e))
  /\ exists rest, exc_msg e = truncate80 (exc_msg e) +:+ rest
                  /\ (rest = EmptyString
                      \/ exists c t, rest = String c t /\ is_continuation c = false).
Proof.
  intros Hr. split; [|split; [|split]].
  - now rewrite fetch_reviews_unfold, Hr.
  - now rewrite fetch_reviews_unfold, Hr.
  - apply str_take_len.
  - apply str_take_prefix.
Qed.

(** C6: [extract_reviewer_id] returns the first element of a non-empty
    signature list; it returns [None] when the attribute is missing, when
    the list is empty, and whenever reading the signatures raises. *)
Theorem extract_reviewer_id_first (inv : option pyval) :
  (forall first rest,
      extract_reviewer_id (mkNote inv (Some (PyList (first :: rest)))) = first)
  /\ extract_reviewer_id (mkNote inv None) = PyNone
  /\ extract_reviewer_id (mkNote inv (Some (PyList []))) = PyNone
  /\ (forall review e,
        extract_reviewer_id_try review = Raise e ->
        extract_reviewer_id review = PyNone)
  /\ (forall z, z <> 0 ->
        extract_reviewer_id_try (mkNote inv (Some (PyInt z)))
          = Raise (TypeError "object of type 'int' has no len()")).
Proof.
  repeat split; try reflexivity.
  - intros review e He. unfold extract_reviewer_id. now rewrite He.
  - intros z Hz. unfold extract_reviewer_id_try. simpl.
    destruct (Z.eqb_spec z 0) as [->|_]; [contradiction | reflexivity].
Qed.

End FetcherFacts.

(** ** The expansion engine *)

Section EngineFacts.

Context `{Platform}.

Lemma mbind_run {A B : Type} (m : M A) (k : A -> M B) (w : World) :
  (m ≫= k) w = k (fst (m w)) (snd (m w)).
Proof. unfold mbind, M_bind. now destruct (m w). Qed.

Lemma fetch_reviews_after_emit (pid : string) (e : event) (w : World) :
  fst (fetch_reviews pid (snd (emit e w))) = fst (fetch_reviews pid w).
Proof.
  rewrite !fetch_reviews_unfold. simpl.
  now destruct (rbind (fst (get_all_notes (svc w) pid)) _).
Qed.

Lemma expand_reviews_filter (pid url : string) (reviews : list Note)
    (rows : list ExpandedRow) (n : nat) :
  expand_reviews pid url reviews rows n =
  (rows ++ map (fun r => mkRow pid url (extract_reviewer_id r))
               (List.filter yields_row reviews),
   (n + length (List.filter yields_row reviews))%nat).
Proof.
  revert rows n. induction reviews as [|r reviews IH]; intros rows n; simpl.
  - now rewrite app_nil_r, Nat.add_0_r.
  - change (py_truthy (extract_reviewer_id r)) with (yields_row r).
    destruct (yields_row r); rewrite IH.
    + simpl. rewrite <- app_assoc. f_equal. lia.
    + reflexivity.
Qed.

(** The loop variables after one paper, from what the fetcher returns. *)
Lemma process_paper_state (total idx : nat) (p : Paper) (st : LoopState) (w : World) :
  let kept := List.filter yields_row (fst (fetch_reviews (p_paper_id p) w)) in
  fst (process_paper total idx p st w) =
  mkLoop (expanded_rows st
            ++ map (fun r => mkRow (p_paper_id p) (p_forum_url p) (extract_reviewer_id r)) kept)
         (papers_with_reviews st + (if Nat.ltb 0 (length kept) then 1 else 0))
         (total_reviews st + length kept)
         (errors st).
Proof.
  unfold process_paper, print_end. rewrite mbind_run, mbind_run.
  rewrite fetch_reviews_after_emit.
  set (w1 := snd (fetch_reviews _ (snd (emit _ w)))). clearbody w1.
  destruct (fst (fetch_reviews (p_paper_id p) w)) as [|r reviews] eqn:Hf.
  - simpl. rewrite !mbind_run. simpl.
    destruct (Nat.ltb idx total); simpl; rewrite app_nil_r, !Nat.add_0_r;
      now destruct st.
  - rewrite expand_reviews_filter. cbv zeta. simpl (0 + _)%nat.
    destruct (Nat.ltb 0 _) eqn:Hlt; rewrite !mbind_run; simpl.
    + destruct (Nat.ltb idx total); simpl; f_equal; lia.
    + apply Nat.ltb_ge in Hlt.
      destruct (Nat.ltb idx total); simpl; f_equal; lia.
Qed.

Lemma main_loop_invariant (P : LoopState -> Prop) :
  (forall total idx p st w, P st -> P (fst (process_paper total idx p st w))) ->
  forall papers total idx st w, P st -> P (fst (main_loop total idx papers st w)).
Proof.
  intros Hstep papers. induction papers as [|p papers IH]; intros total idx st w Hst.
  - exact Hst.
  - simpl. rewrite mbind_run. apply IH, Hstep, Hst.
Qed.

Lemma expand_all_state (papers : list Paper) (w : World) :
  fst (expand_all papers w) =
  (fst (main_loop (length papers) 1 papers (mkLoop [] 0 0 0) w),
   run_stats papers (fst (main_loop (length papers) 1 papers (mkLoop [] 0 0 0) w))).
Proof.
  unfold expand_all. rewrite mbind_run. unfold print_summary.
  now rewrite !mbind_run.
Qed.

(** The counter [errors] is never incremented: the branch that does it is
    the [else] of [if len(reviews) == 0], inside the [else] of
    [if reviews], and no list is both empty and of non-zero length. *)
Lemma errors_never_incremented (papers : list Paper) (w : World) :
  rs_errors (snd (fst (expand_all papers w))) = 0%nat.
Proof.
  rewrite expand_all_state. simpl.
  apply (main_loop_invariant (fun st => errors st = 0%nat)); [|reflexivity].
  intros total idx p st w' Hst. now rewrite process_paper_state.
Qed.

(** C5 (amended): for a paper whose fetch returns K reviews of which R
    yield a reviewer identity that passes the test [if reviewer_id:]
    (neither absent nor empty), the loop appends exactly R rows, adds R to
    [total_reviews], and increments [papers_with_reviews] exactly when
    R > 0; the summary counts every paper as processed. *)
Theorem process_paper_counts (total idx : nat) (p : Paper) (st : LoopState) (w : World) :
  let reviews := fst (fetch_reviews (p_paper_id p) w) in
  let R := length (List.filter yields_row reviews) in
  let st' := fst (process_paper total idx p st w) in
  (R <= length reviews)%nat
  /\ (exists new, expanded_rows st' = expanded_rows st ++ new /\ length new = R)
  /\ total_reviews st' = (total_reviews st + R)%nat
  /\ papers_with_reviews st'
     = (papers_with_reviews st + (if Nat.ltb 0 R then 1 else 0))%nat
  /\ (forall papers w', rs_processed (snd (fst (expand_all papers w'))) = length papers).
Proof.
  cbv zeta. rewrite process_paper_state. simpl. repeat split.
  - apply List.filter_length_le.
  - eexists. split; [reflexivity|]. now rewrite length_map.
  - intros papers w'. now rewrite expand_all_state.
Qed.

(** C9: every row that the run accumulates has a reviewer identity that is
    neither absent nor the empty string; a review whose extracted identity
    is absent or empty adds no row; and the extractor does return an empty
    first signature as it is. *)
Theorem expanded_rows_reviewer_id_nonempty (papers : list Paper) (w : World) :
  Forall (fun row => reviewer_id row <> PyNone /\ reviewer_id row <> PyStr "")
         (expanded_rows (fst (fst (expand_all papers w))))
  /\ (forall pid url review rows n,
        extract_reviewer_id review = PyNone \/ extract_reviewer_id review = PyStr "" ->
        expand_reviews pid url [review] rows n = (rows, n))
  /\ (forall inv rest,
        extract_reviewer_id (mkNote inv (Some (PyList (PyStr "" :: rest)))) = PyStr "")
  /\ (forall pid url reviews,
        Forall (fun r => extract_reviewer_id r = PyNone
                         \/ exists s, extract_reviewer_id r = PyStr s) reviews ->
        Forall (fun row => exists s, reviewer_id row = PyStr s /\ s <> "")
               (fst (expand_reviews pid url reviews [] 0))).
Proof.
  split; [|split; [|split]].
  - rewrite expand_all_state. simpl.
    apply (main_loop_invariant
             (fun st => Forall (fun row => reviewer_id row <> PyNone
                                           /\ reviewer_id row <> PyStr "")
                               (expanded_rows st))); [|constructor].
    intros total idx p st w' Hst. rewrite process_paper_state. simpl.
    apply Forall_app. split; [exact Hst|].
    apply Forall_map, Forall_forall. intros r Hr. simpl.
    apply list_elem_of_In, List.filter_In in Hr. destruct Hr as [_ Hr].
    now apply py_truthy_not_absent.
  - intros pid url review rows n [He | He]; simpl; now rewrite He.
  - reflexivity.
  - intros pid url reviews Hty. rewrite expand_reviews_filter. simpl.
    apply Forall_map, Forall_forall. intros r Hr. simpl.
    apply list_elem_of_In, List.filter_In in Hr. destruct Hr as [Hin Hr].
    rewrite Forall_forall in Hty. apply list_elem_of_In in Hin.
    unfold yields_row in Hr.
    destruct (Hty r Hin) as [He | [s He]]; rewrite He in Hr; [discriminate|].
    exists s. split; [exact He | intros ->; discriminate].
Qed.

End EngineFacts.

(** ** The sampler and the end of the run *)

Section SamplerFacts.

Context `{Platform}.


Lemma quiet_emit (e : event) : is_write e = false -> quiet (emit e).
Proof.
  intros He w. simpl. split; [reflexivity|].
  exists [e]. split; [reflexivity | now constructor].
Qed.

Lemma quiet_print (text : string) : quiet (print text).
Proof. now apply quiet_emit. Qed.

Lemma quiet_ret {A : Type} (a : A) : quiet (mret a).
Proof.
  intros w. simpl. split; [reflexivity|].
  exists []. split; [now rewrite app_nil_r | constructor].
Qed.

Lemma quiet_bind {A B : Type} (m : M A) (k : A -> M B) :
  quiet m -> (forall a, quiet (k a)) -> quiet (m ≫= k).
Proof.
  intros Hm Hk w. rewrite mbind_run.
  destruct (Hm w) as [Hg1 [evs1 [Ht1 Hq1]]].
  destruct (Hk (fst (m w)) (snd (m w))) as [Hg2 [evs2 [Ht2 Hq2]]].
  split; [congruence|].
  exists (evs1 ++ evs2). split.
  - now rewrite Ht2, Ht1, <- app_assoc.
  - now apply Forall_app.
Qed.

Lemma quiet_fetch_reviews (pid : string) : quiet (fetch_reviews pid).
Proof.
  intros w. rewrite fetch_reviews_unfold. cbv zeta.
  destruct (rbind _ _); simpl; (split; [reflexivity|]).
  - exists []. split; [now rewrite app_nil_r | constructor].
  - eexists. split; [reflexivity | now constructor].
Qed.

Lemma quiet_process_paper (total idx : nat) (p : Paper) (st : LoopState) :
  quiet (process_paper total idx p st).
Proof.
  unfold process_paper.
  apply quiet_bind; [now apply quiet_emit | intros _].
  apply quiet_bind; [apply quiet_fetch_reviews | intros reviews].
  apply quiet_bind.
  - destruct reviews as [|r reviews].
    + simpl. apply quiet_bind; [apply quiet_print | intros _; apply quiet_ret].
    + destruct (expand_reviews _ _ _ _ _) as [rows n].
      destruct (Nat.ltb 0 n);
        (apply quiet_bind; [apply quiet_print | intros _; apply quiet_ret]).
  - intros st'. apply quiet_bind; [|intros _; apply quiet_ret].
    destruct (Nat.ltb idx total); [now apply quiet_emit | apply quiet_ret].
Qed.

Lemma quiet_main_loop (papers : list Paper) :
  forall total idx st, quiet (main_loop total idx papers st).
Proof.
  induction papers as [|p papers IH]; intros total idx st; simpl.
  - apply quiet_ret.
  - apply quiet_bind; [apply quiet_process_paper | intros st'; apply IH].
Qed.

Lemma quiet_expand_all (papers : list Paper) : quiet (expand_all papers).
Proof.
  unfold expand_all, print_summary.
  apply quiet_bind; [apply quiet_main_loop | intros st].
  repeat (apply quiet_bind; [|intros _]); try apply quiet_print.
  apply quiet_ret.
Qed.

Lemma quiet_announce (papers : list Paper) : quiet (announce papers).
Proof.
  unfold announce. repeat (apply quiet_bind; [|intros _]); apply quiet_print.
Qed.

Lemma finish_run_empty (w : World) :
  fst (finish_run [] w) = Ok tt
  /\ gen (snd (finish_run [] w)) = gen w
  /\ exists evs, trace (snd (finish_run [] w)) = trace w ++ Print failure_line nl :: evs
                 /\ Forall (fun e => is_write e = false) evs.
Proof.
  simpl. repeat split. eexists. split.
  - rewrite <- !app_assoc. simpl. reflexivity.
  - repeat constructor.
Qed.

Lemma main_from_papers_run (papers : list Paper) (w : World) :
  main_from_papers papers w =
  finish_run (expanded_rows (fst (fst (expand_all papers (snd (announce papers w))))))
             (snd (expand_all papers (snd (announce papers w)))).
Proof.
  unfold main_from_papers. rewrite !mbind_run.
  now destruct (fst (expand_all papers (snd (announce papers w)))).
Qed.

(** C8: when the loop over all papers has accumulated no row, the run
    prints the failure report and ends; it adds no file-system event to
    the trace and leaves the random generator untouched.  So a write or a
    sampling step happens only in a run that accumulated a row. *)
Theorem no_rows_no_write (papers : list Paper) (w : World) :
  let rows := expanded_rows (fst (fst (expand_all papers (snd (announce papers w))))) in
  let out := main_from_papers papers w in
  (rows = [] ->
     fst out = Ok tt
     /\ gen (snd out) = gen w
     /\ exists evs, trace (snd out) = trace w ++ evs
                    /\ Forall (fun e => is_write e = false) evs
                    /\ Print failure_line nl ∈ evs)
  /\ (forall evs, trace (snd out) = trace w ++ evs ->
        Exists (fun e => is_write e = true) evs \/ gen (snd out) <> gen w ->
        rows <> []).
Proof.
  cbv zeta.
  assert (Hempty :
    expanded_rows (fst (fst (expand_all papers (snd (announce papers w))))) = [] ->
    fst (main_from_papers papers w) = Ok tt
    /\ gen (snd (main_from_papers papers w)) = gen w
    /\ exists evs, trace (snd (main_from_papers papers w)) = trace w ++ evs
                   /\ Forall (fun e => is_write e = false) evs
                   /\ Print failure_line nl ∈ evs).
  { intros Hrows. rewrite main_from_papers_run, Hrows.
    destruct (quiet_announce papers w) as [Hg1 [evs1 [Ht1 Hq1]]].
    destruct (quiet_expand_all papers (snd (announce papers w)))
      as [Hg2 [evs2 [Ht2 Hq2]]].
    set (w2 := snd (expand_all papers (snd (announce papers w)))) in *.
    destruct (finish_run_empty w2) as [Hr [Hg3 [evs3 [Ht3 Hq3]]]].
    split; [exact Hr|]. split; [congruence|].
    exists (evs1 ++ evs2 ++ Print failure_line nl :: evs3). split; [|split].
    - now rewrite Ht3, Ht2, Ht1, <- !app_assoc.
    - rewrite !Forall_app. repeat split; try assumption. now constructor.
    - rewrite !elem_of_app. right. right. left. }
  split; [exact Hempty|].
  intros evs Ht Hw Hrows.
  destruct (Hempty Hrows) as [_ [Hg [evs0 [Ht0 [Hq _]]]]].
  destruct Hw as [Hw | Hw]; [|contradiction].
  rewrite Ht in Ht0. apply app_inv_head in Ht0. subst evs0.
  apply Exists_exists in Hw. destruct Hw as [e [He Hwe]].
  rewrite Forall_forall in Hq. specialize (Hq e He). congruence.
Qed.

End SamplerFacts.

Section SamplerSizes.

Context `{RandomSampleLaws}.

(** C4: for a non-negative target size, the sampler returns all the rows
    as they are when there are at most that many; exactly that many rows,
    taken from distinct positions of the input, when there are more; and
    the empty list, without an error, when the target size is zero. *)
Theorem sampler_sizes (target : Z) (rows : list ExpandedRow) (w : World) :
  0 <= target ->
  (Z.of_nat (length rows) <= target -> fst (sampler target rows w) = Ok rows)
  /\ (target < Z.of_nat (length rows) ->
      exists res, fst (sampler target rows w) = Ok res
                  /\ Z.of_nat (length res) = target
                  /\ res ⊆+ rows)
  /\ (target = 0 -> fst (sampler target rows w) = Ok []).
Proof.
  intros Hnonneg.
  assert (Hsmall : Z.of_nat (length rows) <= target ->
                   fst (sampler target rows w) = Ok rows).
  { intros Hle. unfold sampler.
    destruct (Z.ltb_spec target (Z.of_nat (length rows))) as [Hlt|_]; [lia|].
    now rewrite !mbind_run. }
  assert (Hlarge : target < Z.of_nat (length rows) ->
                   exists res, fst (sampler target rows w) = Ok res
                               /\ Z.of_nat (length res) = target
                               /\ res ⊆+ rows).
  { intros Hlt. unfold sampler.
    destruct (Z.ltb_spec target (Z.of_nat (length rows))) as [_|Hge]; [|lia].
    rewrite !mbind_run. unfold call_random_sample. simpl.
    rewrite Z.min_l by lia.
    destruct (random_sample_ok _ (gen w) rows target) as [res [Hres [Hlen Hsub]]];
      [lia|].
    destruct (random_sample (gen w) rows target) as [r g]. simpl in *.
    exists res. repeat split; [exact Hres | lia | exact Hsub]. }
  split; [exact Hsmall|]. split; [exact Hlarge|].
  intros ->. destruct rows as [|row rows].
  - now apply Hsmall.
  - destruct Hlarge as [res [Hres [Hlen _]]]; [simpl; lia|].
    rewrite Hres. destruct res; [reflexivity | simpl in Hlen; lia].
Qed.

End SamplerSizes.

(** ** The pipeline on the scripted platform *)

Lemma scripted_random_sample_laws : @RandomSampleLaws scripted.
Proof.
  split; intros A g population k Hk; simpl; unfold counter_sample.
  - destruct (Z.leb_spec 0 k); [|lia].
    destruct (Z.leb_spec k (Z.of_nat (length population))); [|lia]. simpl.
    eexists. split; [reflexivity|]. split.
    + rewrite length_take. destruct (Nat.even g); [|rewrite length_reverse]; lia.
    + destruct (Nat.even g).
      * apply sublist_submseteq, sublist_take.
      * rewrite <- (reverse_Permutation population) at 2.
        apply sublist_submseteq, sublist_take.
  - destruct (Z.leb_spec 0 k); simpl.
    + destruct (Z.leb_spec k (Z.of_nat (length population))); [lia|].
      eexists; reflexivity.
    + eexists; reflexivity.
Qed.

(** Scenario 1 of the specification: two reviews for P1, none for P2. *)
Example scenario_two_reviews :
  fst (@expand_all scripted [paper "P1"; paper "P2"] sample_world)
  = (mkLoop [ mkRow "P1" "https://openreview.net/forum?id=P1" (PyStr "R1");
              mkRow "P1" "https://openreview.net/forum?id=P1" (PyStr "R2") ] 1 2 0,
     mkStats 2 1 2 0).
Proof. vm_compute. reflexivity. Qed.

(** A malformed note makes the whole fetch of its paper fail, also for the
    review that was already collected. *)
Example malformed_note_discards_paper :
  fst (@fetch_reviews scripted "P6" sample_world) = []
  /\ trace (snd (@fetch_reviews scripted "P6" sample_world))
     = [Print "  [X] Error for P6: 'int' object is not iterable" nl].
Proof. vm_compute. split; reflexivity. Qed.

(** On the scripted platform two generator states give two samples. *)
Example sample_depends_on_generator :
  fst (@sampler scripted 2 sample_rows (scripted_world [] 0 []))
  = Ok [mkRow "P1" "u1" (PyStr "R1"); mkRow "P1" "u1" (PyStr "R2")]
  /\ fst (@sampler scripted 2 sample_rows (scripted_world [] 1 []))
     = Ok [mkRow "P8" "u8" (PyStr "R3"); mkRow "P1" "u1" (PyStr "R2")].
Proof. vm_compute. split; reflexivity. Qed.

(** C1, counterexample: the only label of the note of P4 holds the marker
    in lower case.  The selection of the specification keeps the note;
    [fetch_reviews] returns nothing. *)
Lemma fetch_reviews_case_counterexample :
  fst (@get_all_notes scripted (svc sample_world) "P4") = Ok [note_lower]
  /\ Forall well_formed_note [note_lower]
  /\ fetch_reviews_spec [note_lower] = [note_lower]
  /\ fst (@fetch_reviews scripted "P4" sample_world) = []
  /\ fst (@fetch_reviews scripted "P4" sample_world) <> fetch_reviews_spec [note_lower].
Proof.
  split; [reflexivity|]. split.
  - constructor; [eexists; reflexivity | constructor].
  - split; [reflexivity|]. split; [reflexivity|]. vm_compute. discriminate.
Qed.

Lemma fetch_reviews_filters_witness :
  fst (@get_all_notes scripted (svc sample_world) "P1")
    = Ok [review_of "R1"; note_comment; review_of "R2"]
  /\ Forall well_formed_note [review_of "R1"; note_comment; review_of "R2"]
  /\ fst (@fetch_reviews scripted "P1" sample_world) = [review_of "R1"; review_of "R2"].
Proof.
  assert (Hwf : Forall well_formed_note [review_of "R1"; note_comment; review_of "R2"]).
  { repeat (constructor; [eexists; reflexivity|]). constructor. }
  split; [reflexivity|]. split; [exact Hwf|].
  exact (proj1 (@fetch_reviews_filters scripted "P1" sample_world _ eq_refl Hwf)).
Defined.

(** C10, on a note with two labels that hold the marker. *)
Lemma fetch_reviews_at_most_once_witness :
  fst (@get_all_notes scripted (svc sample_world) "P7") = Ok [note_two_labels]
  /\ fst (@fetch_reviews scripted "P7" sample_world) `sublist_of` [note_two_labels].
Proof.
  split; [reflexivity|].
  exact (proj1 (@fetch_reviews_at_most_once scripted "P7" sample_world _ eq_refl)).
Defined.

Example two_labels_kept_once :
  fst (@fetch_reviews scripted "P7" sample_world) = [note_two_labels].
Proof. reflexivity. Qed.

Lemma fetch_reviews_catches_witness :
  rbind (fst (@get_all_notes scripted (svc sample_world) "P3"))
        (fun notes => collect_reviews notes []) = Raise timeout_error
  /\ fst (@fetch_reviews scripted "P3" sample_world) = []
  /\ trace (snd (@fetch_reviews scripted "P3" sample_world))
     = [Print "  [X] Error for P3: HTTPSConnectionPool(host='api2.openreview.net', port=443): Read timed out. (read" nl].
Proof.
  split; [reflexivity|].
  destruct (@fetch_reviews_catches scripted "P3" sample_world timeout_error eq_refl)
    as [Hnil [Htrace _]].
  split; [exact Hnil | exact Htrace].
Defined.

(** The cut of the error message falls after a whole character: here the
    80th character takes two bytes. *)
Example truncate80_keeps_whole_character :
  let accented := String (Ascii.ascii_of_nat 195) (String (Ascii.ascii_of_nat 169) EmptyString) in
  let head := String.concat "" (replicate 79 "a") +:+ accented in
  truncate80 (head +:+ "zz") = head
  /\ String.length (truncate80 (head +:+ "zz")) = 81%nat
  /\ str_len (truncate80 (head +:+ "zz")) = 80%nat.
Proof. vm_compute. repeat split. Qed.

Lemma extract_reviewer_id_first_witness :
  extract_reviewer_id (review_of "R1") = PyStr "R1"
  /\ extract_reviewer_id_try note_bad_invitations = Ok (PyStr "R5")
  /\ extract_reviewer_id_try (mkNote None (Some (PyInt 7)))
     = Raise (TypeError "object of type 'int' has no len()")
  /\ extract_reviewer_id (mkNote None (Some (PyInt 7))) = PyNone.
Proof.
  destruct (extract_reviewer_id_first (Some (PyList [PyStr review_label])))
    as [Hfirst _].
  destruct (extract_reviewer_id_first None) as [_ [_ [_ [Hcatch Hraise]]]].
  split; [exact (Hfirst (PyStr "R1") []) | split; [reflexivity|]].
  assert (Hneq : 7 <> 0) by discriminate.
  split; [exact (Hraise 7 Hneq) | exact (Hcatch _ _ (Hraise 7 Hneq))].
Defined.

(** C2, at scenario 2 of the specification: the fetch of P3 raises and
    P2 has no notes.  The run goes on to P2, and the error is printed by
    the fetcher, but the counter [errors] of the summary stays at zero. *)
Theorem errors_not_counted_on_fetch_failure :
  let run := @expand_all scripted [paper "P3"; paper "P2"] sample_world in
  fst (@get_all_notes scripted (svc sample_world) "P3") = Raise timeout_error
  /\ fst run = (mkLoop [] 0 0 0, mkStats 2 0 0 0)
  /\ rs_errors (snd (fst run)) = 0%nat
  /\ trace (snd run)
     = [ Print "[1/2] Fetching: P3" " ";
         Print "  [X] Error for P3: HTTPSConnectionPool(host='api2.openreview.net', port=443): Read timed out. (read" nl;
         Print "[OK] 0 reviews" nl;
         Sleep 2;
         Print "[2/2] Fetching: P2" " ";
         Print "[OK] 0 reviews" nl;
         Print (nl +:+ "[*] Summary:") nl;
         Print "    Papers processed: 2" nl;
         Print "    Papers with reviews: 0" nl;
         Print "    Total reviews collected: 0" nl;
         Print "    Errors encountered: 0" nl ].
Proof. vm_compute. repeat split. Qed.

(** C5, counterexample: the one review of P5 is signed with the empty
    string.  The extractor returns it, so the review yields a reviewer
    identity that is not absent (K = R = 1), yet no row is appended and
    no counter moves. *)
Lemma process_paper_blank_counterexample :
  let reviews := fst (@fetch_reviews scripted "P5" sample_world) in
  let st' := fst (@process_paper scripted 1 1 (paper "P5") (mkLoop [] 0 0 0) sample_world) in
  length reviews = 1%nat
  /\ map extract_reviewer_id reviews = [PyStr ""]
  /\ length (List.filter resolvable_spec reviews) = 1%nat
  /\ expanded_rows st' = []
  /\ total_reviews st' = 0%nat
  /\ papers_with_reviews st' = 0%nat.
Proof. vm_compute. repeat split. Qed.



Lemma sampler_sizes_witness :
  0 <= 2
  /\ (exists res, fst (@sampler scripted 2 sample_rows sample_world) = Ok res
                  /\ Z.of_nat (length res) = 2
                  /\ res ⊆+ sample_rows)
  /\ fst (@sampler scripted 3 sample_rows sample_world) = Ok sample_rows
  /\ fst (@sampler scripted 0 sample_rows sample_world) = Ok [].
Proof.
  split; [lia|]. split; [|split].
  - apply (@sampler_sizes scripted scripted_random_sample_laws 2 sample_rows sample_world);
      simpl; lia.
  - apply (@sampler_sizes scripted scripted_random_sample_laws 3 sample_rows sample_world);
      simpl; lia.
  - apply (@sampler_sizes scripted scripted_random_sample_laws 0 sample_rows sample_world);
      [lia | reflexivity].
Defined.

Lemma no_rows_no_write_witness :
  expanded_rows (fst (fst (@expand_all scripted [paper "P3"; paper "P2"]
                             (snd (@announce scripted [paper "P3"; paper "P2"] sample_world)))))
    = []
  /\ fst (@main_from_papers scripted [paper "P3"; paper "P2"] sample_world) = Ok tt
  /\ gen (snd (@main_from_papers scripted [paper "P3"; paper "P2"] sample_world)) = 0%nat.
Proof.
  split; [reflexivity|].
  destruct (proj1 (@no_rows_no_write scripted [paper "P3"; paper "P2"] sample_world)
                  eq_refl) as [Hok [Hgen _]].
  split; [exact Hok | exact Hgen].
Defined.

Lemma expanded_rows_reviewer_id_nonempty_witness :
  (extract_reviewer_id (review_of "") = PyNone
   \/ extract_reviewer_id (review_of "") = PyStr "")
  /\ expand_reviews "P5" "u5" [review_of ""] [] 0 = ([], 0%nat)
  /\ Forall (fun row => reviewer_id row <> PyNone /\ reviewer_id row <> PyStr "")
            (expanded_rows (fst (fst (@expand_all scripted [paper "P1"; paper "P5"]
                                        sample_world)))).
Proof.
  assert (Hblank : extract_reviewer_id (review_of "") = PyNone
                   \/ extract_reviewer_id (review_of "") = PyStr "")
    by (right; reflexivity).
  destruct (@expanded_rows_reviewer_id_nonempty scripted [paper "P1"; paper "P5"]
              sample_world) as [Hrows [Hskip _]].
  split; [exact Hblank|].
  split; [exact (Hskip "P5" "u5" (review_of "") [] 0%nat Hblank) | exact Hrows].
Defined.

Lemma process_paper_counts_witness :
  let st' := fst (@process_paper scripted 2 1 (paper "P1") (mkLoop [] 0 0 0) sample_world) in
  (exists new, expanded_rows st' = [] ++ new /\ length new = 2%nat)
  /\ total_reviews st' = 2%nat
  /\ papers_with_reviews st' = 1%nat.
Proof.
  destruct (@process_paper_counts scripted 2 1 (paper "P1") (mkLoop [] 0 0 0) sample_world)
    as [_ [Hrows [Htotal [Hpapers _]]]].
  split; [exact Hrows | split; [exact Htotal | exact Hpapers]].
Defined.

(** * Further properties of the pipeline *)

(** ** The fetcher on answers of any shape *)

Lemma split_chars_cons (c d : Ascii.ascii) (t : string) :
  split_chars (String c (String d t)) =
  if is_continuation d
  then match split_chars (String d t) with
       | [] => [String c EmptyString]
       | h :: rest => String c h :: rest
       end
  else String c EmptyString :: split_chars (String d t).
Proof. reflexivity. Qed.

(** Each piece that [split_chars] cuts holds at most one byte that starts
    a character, and none in its first piece when the string starts with a
    continuation byte. *)
Lemma split_chars_one (s : string) :
  Forall (fun h => (str_len h <= 1)%nat) (split_chars s)
  /\ (forall d t, s = String d t -> is_continuation d = true ->
        exists h rest, split_chars s = h :: rest /\ str_len h = 0%nat).
Proof.
  induction s as [|c s [IHall IHhead]].
  - split; [constructor | discriminate].
  - destruct s as [|d t].
    + split.
      * constructor; [|constructor]. simpl. destruct (is_continuation c); lia.
      * intros d t [= <- <-] Hc. exists (String c EmptyString), []. simpl.
        now rewrite Hc.
    + rewrite split_chars_cons. destruct (is_continuation d) eqn:Hd.
      * destruct (IHhead d t eq_refl Hd) as [h [rest [Hs Hh]]].
        rewrite Hs in IHall |- *. apply Forall_cons in IHall. destruct IHall as [_ Hrest].
        split.
        -- constructor; [|exact Hrest]. cbn [str_len]. rewrite Hh.
           destruct (is_continuation c); lia.
        -- intros d' t' [= <- <-] Hc. exists (String c h), rest.
           split; [reflexivity|]. cbn [str_len]. now rewrite Hc, Hh.
      * split.
        -- constructor; [|exact IHall]. simpl. destruct (is_continuation c); lia.
        -- intros d' t' [= <- <-] Hc. eexists _, _. split; [reflexivity|].
           simpl. now rewrite Hc.
Qed.

Lemma str_len_append (a b : string) :
  str_len (a +:+ b) = (str_len a + str_len b)%nat.
Proof.
  induction a as [|c a IH]; [reflexivity|].
  change (String c a +:+ b) with (String c (a +:+ b)). cbn [str_len].
  rewrite IH. lia.
Qed.

Lemma marker_needs_15_characters (h : string) :
  str_contains MARKER h = true -> (15 <= str_len h)%nat.
Proof.
  intros Hc. apply str_contains_spec in Hc. destruct Hc as [pre [post ->]].
  rewrite !str_len_append. change (str_len MARKER) with 15%nat. lia.
Qed.

(** The loop over the characters of one string never finds the marker:
    no single character holds it. *)
Lemma scan_invitations_chars (s : string) :
  scan_invitations (str_chars s) = Ok false.
Proof.
  unfold str_chars. rewrite scan_invitations_labels. f_equal.
  destruct (split_chars_one s) as [Hall _].
  induction Hall as [|h l Hh _ IH]; [reflexivity|]. simpl. rewrite IH.
  destruct (str_contains MARKER h) eqn:Hc; [|reflexivity].
  apply marker_needs_15_characters in Hc. lia.
Qed.

Lemma collect_reviews_kept (notes reviews out : list Note) (P : Note -> Prop) :
  (forall n, rbind (py_iter (default (PyList []) (invitations n))) scan_invitations
             = Ok true -> P n) ->
  collect_reviews notes reviews = Ok out ->
  Forall P reviews -> Forall P out.
Proof.
  intros HP. revert reviews. induction notes as [|n notes IH]; intros reviews; simpl.
  - now intros [= <-].
  - destruct (rbind _ scan_invitations) as [[|]|e] eqn:Hn; [| |discriminate];
      intros Hc Hr; apply (IH _ Hc); [|exact Hr].
    apply Forall_app. split; [exact Hr|]. constructor; [now apply HP | constructor].
Qed.

Lemma collect_reviews_malformed (notes reviews : list Note) (n : Note) (e : PyException) :
  n ∈ notes ->
  py_iter (default (PyList []) (invitations n)) = Raise e ->
  exists e', collect_reviews notes reviews = Raise e'.
Proof.
  intros Hin Hn. revert reviews.
  induction notes as [|m notes IH]; intros reviews; [now apply elem_of_nil in Hin|].
  apply elem_of_cons in Hin. simpl. destruct Hin as [<- | Hin].
  - rewrite Hn. simpl. now exists e.
  - destruct (rbind _ scan_invitations) as [[|]|e1]; [now apply IH | now apply IH |].
    now exists e1.
Qed.

Section FetcherExtras.

Context `{Platform}.

(** X1: a note whose [invitations] attribute is one bare string is never
    returned by [fetch_reviews], even when that string holds the marker:
    the loop then visits the characters of the string, and no character
    holds the marker. *)
Theorem bare_string_invitations_never_match (pid : string) (w : World) :
  Forall (fun n => forall s, invitations n <> Some (PyStr s))
         (fst (fetch_reviews pid w)).
Proof.
  rewrite fetch_reviews_unfold. cbv zeta.
  destruct (fst (get_all_notes (svc w) pid)) as [notes|e]; simpl; [|constructor].
  destruct (collect_reviews notes []) as [out|e] eqn:Hc; simpl; [|constructor].
  apply (collect_reviews_kept notes [] out); [|exact Hc|constructor].
  intros n Hn s Hs. rewrite Hs in Hn. simpl in Hn.
  rewrite scan_invitations_chars in Hn. discriminate.
Qed.

(** X2: One note whose [invitations] attribute is [None] or an integer makes
    the fetch of its whole paper come back empty, with one error line
    printed: the reviews collected before it are lost with it. *)
Theorem fetch_reviews_all_or_nothing (pid : string) (w : World)
    (notes : list Note) (n : Note) :
  fst (get_all_notes (svc w) pid) = Ok notes ->
  n ∈ notes ->
  (invitations n = Some PyNone \/ exists z, invitations n = Some (PyInt z)) ->
  fst (fetch_reviews pid w) = []
  /\ exists e, trace (snd (fetch_reviews pid w))
               = trace w ++ [Print (fetch_error_line pid e) nl].
Proof.
  intros Hget Hin Hbad.
  assert (Hiter : exists e, py_iter (default (PyList []) (invitations n)) = Raise e).
  { destruct Hbad as [-> | [z ->]]; simpl; eexists; reflexivity. }
  destruct Hiter as [e He].
  destruct (collect_reviews_malformed notes [] n e Hin He) as [e' Hc].
  rewrite fetch_reviews_unfold, Hget. simpl. rewrite Hc. simpl.
  split; [reflexivity | now exists e'].
Qed.

End FetcherExtras.

Lemma fetch_reviews_all_or_nothing_witness :
  fst (@get_all_notes scripted (svc sample_world) "P6")
    = Ok [review_of "R1"; note_bad_invitations]
  /\ note_bad_invitations ∈ [review_of "R1"; note_bad_invitations]
  /\ fst (@fetch_reviews scripted "P6" sample_world) = [].
Proof.
  assert (Hin : note_bad_invitations ∈ [review_of "R1"; note_bad_invitations]).
  { apply elem_of_cons. right. apply elem_of_cons. now left. }
  split; [reflexivity|]. split; [exact Hin|].
  refine (proj1 (@fetch_reviews_all_or_nothing scripted "P6" sample_world _
                   note_bad_invitations eq_refl Hin _)).
  right. now exists 5.
Defined.

(** ** The loop over the papers *)

Section EngineExtras.

Context `{Platform}.

Lemma main_loop_invariant_in (P : LoopState -> Prop) (all : list Paper) :
  (forall total idx p st w,
      p ∈ all -> P st -> P (fst (process_paper total idx p st w))) ->
  forall papers total idx st w,
    papers ⊆ all -> P st -> P (fst (main_loop total idx papers st w)).
Proof.
  intros Hstep papers. induction papers as [|p papers IH]; intros total idx st w Hsub Hst.
  - exact Hst.
  - simpl. rewrite mbind_run. apply IH.
    + intros q Hq. apply Hsub. now right.
    + apply Hstep; [apply Hsub; now left | exact Hst].
Qed.

(** X4: Every accumulated row carries the identifier and the forum URL of one
    and the same input paper. *)
Theorem rows_come_from_papers (papers : list Paper) (w : World) :
  Forall (fun row => exists p, p ∈ papers
                               /\ paper_id row = p_paper_id p
                               /\ forum_url row = p_forum_url p)
         (expanded_rows (fst (fst (expand_all papers w)))).
Proof.
  rewrite expand_all_state. simpl.
  apply (main_loop_invariant_in
           (fun st => Forall (fun row => exists p, p ∈ papers
                                                   /\ paper_id row = p_paper_id p
                                                   /\ forum_url row = p_forum_url p)
                             (expanded_rows st)) papers);
    [|reflexivity|constructor].
  intros total idx p st w' Hp Hst. rewrite process_paper_state. simpl.
  apply Forall_app. split; [exact Hst|].
  apply Forall_map, Forall_forall. intros r _. simpl. now exists p.
Qed.

Lemma main_loop_papers_with_reviews (papers : list Paper) :
  forall total idx st w,
    (papers_with_reviews (fst (main_loop total idx papers st w))
     <= papers_with_reviews st + length papers)%nat.
Proof.
  induction papers as [|p papers IH]; intros total idx st w; simpl; [lia|].
  rewrite mbind_run.
  etransitivity; [apply IH|]. rewrite process_paper_state. simpl.
  destruct (Nat.ltb 0 _); lia.
Qed.

(** X5: The counters of the summary agree with the rows: [total_reviews] is
    the number of accumulated rows, and [papers_with_reviews] exceeds
    neither that number nor the number of papers. *)
Theorem summary_counts_rows (papers : list Paper) (w : World) :
  let st := fst (fst (expand_all papers w)) in
  let rs := snd (fst (expand_all papers w)) in
  rs_total_reviews rs = length (expanded_rows st)
  /\ (rs_papers_with_reviews rs <= rs_total_reviews rs)%nat
  /\ (rs_papers_with_reviews rs <= rs_processed rs)%nat.
Proof.
  cbv zeta. rewrite expand_all_state. simpl.
  split; [|split].
  - apply (main_loop_invariant
             (fun st => total_reviews st = length (expanded_rows st))); [|reflexivity].
    intros total idx p st w' Hst. rewrite process_paper_state. simpl.
    rewrite length_app, length_map. lia.
  - apply (main_loop_invariant
             (fun st => (papers_with_reviews st <= total_reviews st)%nat)); [|reflexivity].
    intros total idx p st w' Hst. rewrite process_paper_state. simpl.
    destruct (Nat.ltb_spec 0 (length (List.filter yields_row
                (fst (fetch_reviews (p_paper_id p) w'))))); lia.
  - apply (main_loop_papers_with_reviews papers (length papers) 1 (mkLoop [] 0 0 0) w).
Qed.

(** X6: The loop only appends: the rows it starts from stay, in place, at the
    front of the rows it ends with, and no counter goes down. *)
Theorem main_loop_appends (total idx : nat) (papers : list Paper)
    (st : LoopState) (w : World) :
  let st' := fst (main_loop total idx papers st w) in
  expanded_rows st `prefix_of` expanded_rows st'
  /\ (papers_with_reviews st <= papers_with_reviews st')%nat
  /\ (total_reviews st <= total_reviews st')%nat.
Proof.
  cbv zeta.
  apply (main_loop_invariant
           (fun st' => expanded_rows st `prefix_of` expanded_rows st'
                       /\ (papers_with_reviews st <= papers_with_reviews st')%nat
                       /\ (total_reviews st <= total_reviews st')%nat)).
  - intros total' idx' p st1 w' [Hrows [Hp Ht]]. rewrite process_paper_state. simpl.
    split; [|split; lia].
    etransitivity; [exact Hrows | now apply prefix_app_r].
  - split; [reflexivity | split; lia].
Qed.

Lemma pauses_ret {A : Type} (a : A) : pauses (mret a) 0.
Proof. intros w. exists []. simpl. now rewrite app_nil_r. Qed.

Lemma pauses_emit (e : event) :
  is_sleep e = false -> pauses (emit e) 0.
Proof. intros He w. exists [e]. simpl. now rewrite He. Qed.

Lemma pauses_sleep : pauses (sleep DELAY_SECONDS) 1.
Proof. intros w. now exists [Sleep DELAY_SECONDS]. Qed.

Lemma pauses_bind {A B : Type} (m : M A) (k : A -> M B) (i j : nat) :
  pauses m i -> (forall a, pauses (k a) j) -> pauses (m ≫= k) (i + j).
Proof.
  intros Hm Hk w. rewrite mbind_run.
  destruct (Hm w) as [evs1 [Ht1 Hs1]].
  destruct (Hk (fst (m w)) (snd (m w))) as [evs2 [Ht2 Hs2]].
  exists (evs1 ++ evs2). split.
  - now rewrite Ht2, Ht1, <- app_assoc.
  - now rewrite List.filter_app, Hs1, Hs2, replicate_add.
Qed.

Lemma pauses_fetch_reviews (pid : string) : pauses (fetch_reviews pid) 0.
Proof.
  intros w. rewrite fetch_reviews_unfold. cbv zeta.
  destruct (rbind _ _); simpl.
  - exists []. now rewrite app_nil_r.
  - eexists. split; reflexivity.
Qed.

Lemma pauses_process_paper (total idx : nat) (p : Paper) (st : LoopState) :
  pauses (process_paper total idx p st) (if Nat.ltb idx total then 1 else 0).
Proof.
  unfold process_paper.
  apply (pauses_bind _ _ 0); [now apply pauses_emit | intros _].
  apply (pauses_bind _ _ 0); [apply pauses_fetch_reviews | intros reviews].
  apply (pauses_bind _ _ 0).
  - destruct reviews as [|r reviews].
    + simpl. apply (pauses_bind _ _ 0); [now apply pauses_emit | intros _; apply pauses_ret].
    + destruct (expand_reviews _ _ _ _ _) as [rows n].
      destruct (Nat.ltb 0 n);
        (apply (pauses_bind _ _ 0); [now apply pauses_emit | intros _; apply pauses_ret]).
  - intros st'. destruct (Nat.ltb idx total).
    + apply (pauses_bind _ _ 1 0); [apply pauses_sleep | intros _; apply pauses_ret].
    + apply (pauses_bind _ _ 0 0); [apply pauses_ret | intros _; apply pauses_ret].
Qed.

Lemma pauses_main_loop (papers : list Paper) :
  forall total idx st,
    pauses (main_loop total idx papers st)
           (Nat.min total (idx + length papers) - Nat.min total idx).
Proof.
  induction papers as [|p papers IH]; intros total idx st; simpl.
  - replace (_ - _)%nat with 0%nat by lia. apply pauses_ret.
  - replace (_ - _)%nat
      with ((if Nat.ltb idx total then 1 else 0)
            + (Nat.min total (S idx + length papers) - Nat.min total (S idx)))%nat
      by (destruct (Nat.ltb_spec idx total); lia).
    apply pauses_bind; [apply pauses_process_paper | intros st'; apply IH].
Qed.

(** X7: Rate limiting: a run over [n] papers sleeps [n - 1] times, each time
    for [DELAY_SECONDS]; a run over no paper or one paper never sleeps. *)
Theorem one_pause_between_papers (papers : list Paper) (w : World) :
  exists evs, trace (snd (expand_all papers w)) = trace w ++ evs
              /\ List.filter is_sleep evs
                 = replicate (length papers - 1) (Sleep DELAY_SECONDS).
Proof.
  assert (Hp : pauses (expand_all papers) (length papers - 1)).
  { unfold expand_all, print_summary.
    replace (length papers - 1)%nat
      with ((Nat.min (length papers) (1 + length papers) - Nat.min (length papers) 1)
            + 0)%nat by lia.
    apply pauses_bind; [apply pauses_main_loop | intros st].
    apply (pauses_bind _ _ 0 0); [|intros _; apply pauses_ret].
    repeat (apply (pauses_bind _ _ 0 0); [|intros _]); now apply pauses_emit. }
  apply Hp.
Qed.

End EngineExtras.

(** ** The end of the run *)

Section RunExtras.

Context `{Platform}.

Lemma finish_run_cons (r : ExpandedRow) (rows : list ExpandedRow) :
  finish_run (r :: rows) =
  (s ← sampler SAMPLE_SIZE (r :: rows);
   match s with
   | Raise e => mret (Raise e)
   | Ok sampled_rows =>
       print (nl +:+ "[*] Writing output file: " +:+ OUTPUT_FILE);;
       r ← write_rows_try sampled_rows;
       match r with
       | Raise e =>
           print ("[ERROR] Error writing output file: " +:+ exc_msg e);;
           mret (Ok tt)
       | Ok _ =>
           print (nl +:+ banner);;
           print "[SUCCESS] Done!";;
           print banner;;
           mret (Ok tt)
       end
   end).
Proof. reflexivity. Qed.

(** What the writer does once the sampler has returned [sampled] in a
    world [w1], for each outcome of the file system. *)
Lemma write_phase (sampled : list ExpandedRow) (w1 : World) (k : result unit -> M (result unit)) :
  (write_rows_try sampled ≫= k) w1 =
  match fs_outcome w1 with
  | MkdirFails e =>
      k (Raise e) (snd (emit (Mkdir "papers") w1))
  | OpenFails e =>
      k (Raise e) (snd (emit (OpenWrite OUTPUT_FILE) (snd (emit (Mkdir "papers") w1))))
  | WriteFails e =>
      k (Raise e)
        (snd (emit (WriteRows sampled)
           (snd (emit (WriteHeader FIELDNAMES)
              (snd (emit (OpenWrite OUTPUT_FILE) (snd (emit (Mkdir "papers") w1))))))))
  | FsOk =>
      k (Ok tt)
        (snd (print ("[OK] Successfully wrote " +:+ pretty (length sampled)
                     +:+ " rows to " +:+ OUTPUT_FILE)
           (snd (emit (WriteRows sampled)
              (snd (emit (WriteHeader FIELDNAMES)
                 (snd (emit (OpenWrite OUTPUT_FILE)
                    (snd (emit (Mkdir "papers") w1))))))))))
  end.
Proof.
  unfold write_rows_try. rewrite !mbind_run. simpl.
  destruct (fs_outcome w1); reflexivity.
Qed.

Lemma sampler_small_run (target : Z) (rows : list ExpandedRow) (w : World) :
  Z.of_nat (length rows) <= target ->
  sampler target rows w =
  (Ok rows,
   snd (print (nl +:+ "[WARN] Only " +:+ pretty (Z.of_nat (length rows))
               +:+ " rows available (less than " +:+ pretty target +:+ ")") w)).
Proof.
  intros Hle. unfold sampler.
  destruct (Z.ltb_spec target (Z.of_nat (length rows))) as [Hlt|_]; [lia|].
  now rewrite mbind_run.
Qed.

(** X8: A run that accumulated between one and [SAMPLE_SIZE] rows, on a file
    system that works, writes all of them in the order of accumulation:
    it creates the directory, opens the file, writes the header and then
    the rows, reports success, and does not touch the random generator. *)
Theorem small_run_writes_all_rows (rows : list ExpandedRow) (w : World) :
  rows <> [] ->
  Z.of_nat (length rows) <= SAMPLE_SIZE ->
  fs_outcome w = FsOk ->
  fst (finish_run rows w) = Ok tt
  /\ gen (snd (finish_run rows w)) = gen w
  /\ exists evs, trace (snd (finish_run rows w)) = trace w ++ evs
                 /\ List.filter is_write evs
                    = [ Mkdir "papers"; OpenWrite "papers/data_final.csv";
                        WriteHeader ["paper_id"; "forum_url"; "reviewer_id"];
                        WriteRows rows ]
                 /\ last evs = Some (Print banner nl)
                 /\ Print "[SUCCESS] Done!" nl ∈ evs.
Proof.
  intros Hne Hlen Hfs. destruct rows as [|r rs]; [contradiction|].
  rewrite finish_run_cons. remember (r :: rs) as rows eqn:Hrows. clear Hrows Hne.
  rewrite mbind_run, (sampler_small_run _ _ _ Hlen). cbn [fst snd].
  rewrite mbind_run, write_phase. simpl fs_outcome. rewrite Hfs.
  rewrite !mbind_run. simpl.
  split; [reflexivity|]. split; [reflexivity|].
  eexists. split; [rewrite <- !app_assoc; simpl; reflexivity|].
  split; [reflexivity|]. split; [reflexivity|].
  rewrite !elem_of_cons. do 8 right. now left.
Qed.

(** X12: Without any input the program stops early: when the connection fails,
    or when the input file is missing or unreadable, [main] returns
    having only printed; it calls neither the service nor the random
    generator, never sleeps and writes nothing. *)
Theorem main_aborts_before_fetching (w : World) :
  (is_Some (connect_outcome w) \/ forall papers, input_outcome w <> InputRows papers) ->
  fst (main w) = Ok tt
  /\ svc (snd (main w)) = svc w
  /\ gen (snd (main w)) = gen w
  /\ exists evs, trace (snd (main w)) = trace w ++ evs
                 /\ Forall (fun e => is_print e = true) evs.
Proof.
  intros Hstop. unfold main. rewrite !mbind_run. simpl.
  destruct (connect_outcome w) as [e|] eqn:Hc.
  - rewrite !mbind_run. simpl. repeat split.
    eexists. split; [rewrite <- !app_assoc; simpl; reflexivity|].
    repeat constructor.
  - destruct Hstop as [[e He] | Hin]; [discriminate|].
    rewrite !mbind_run. simpl.
    destruct (input_outcome w) as [papers| |e] eqn:Hi.
    + now destruct (Hin papers).
    + rewrite !mbind_run. simpl. repeat split.
      eexists. split; [rewrite <- !app_assoc; simpl; reflexivity|].
      repeat constructor.
    + rewrite !mbind_run. simpl. repeat split.
      eexists. split; [rewrite <- !app_assoc; simpl; reflexivity|].
      repeat constructor.
Qed.

End RunExtras.

Section RunExtrasSampled.

Context `{RandomSampleLaws}.

(** With [random.sample] as documented, the sampler of [main] always
    returns: its result has [min(SAMPLE_SIZE, len(rows))] rows taken from
    [rows], and all it does to the world is print one line and, possibly,
    advance the generator. *)
Lemma sampler_run (rows : list ExpandedRow) (w : World) :
  exists sampled w1 rest,
    sampler SAMPLE_SIZE rows w = (Ok sampled, w1)
    /\ trace w1 = trace w ++ [Print (nl +:+ rest) nl]
    /\ fs_outcome w1 = fs_outcome w
    /\ svc w1 = svc w
    /\ length sampled = Nat.min 150 (length rows)
    /\ sampled ⊆+ rows.
Proof.
  remember (Nat.min 150 (length rows)) as m eqn:Hm.
  destruct (Z.le_gt_cases (Z.of_nat (length rows)) SAMPLE_SIZE) as [Hle|Hgt].
  - rewrite (sampler_small_run _ _ _ Hle).
    eexists rows, _, _. split; [reflexivity|].
    split; [reflexivity|]. split; [reflexivity|]. split; [reflexivity|].
    split; [unfold SAMPLE_SIZE in Hle; lia | reflexivity].
  - unfold sampler.
    destruct (Z.ltb_spec SAMPLE_SIZE (Z.of_nat (length rows))) as [_|Hge]; [|lia].
    rewrite mbind_run. unfold call_random_sample. simpl.
    rewrite Z.min_l by lia.
    destruct (random_sample_ok _ (gen w) rows SAMPLE_SIZE) as [res [Hres [Hlen Hsub]]];
      [unfold SAMPLE_SIZE in *; lia|].
    destruct (random_sample (gen w) rows SAMPLE_SIZE) as [r g]. simpl in Hres. subst r.
    eexists res, _, _. split; [reflexivity|].
    split; [reflexivity|]. split; [reflexivity|]. split; [reflexivity|].
    split; [|exact Hsub].
    rewrite Hlen. unfold SAMPLE_SIZE in *. lia.
Qed.

(** X9: A run that accumulated more than [SAMPLE_SIZE] rows, on a file system
    that works, writes exactly [SAMPLE_SIZE] rows, each taken from a
    different position of the accumulated rows. *)
Theorem large_run_writes_sample (rows : list ExpandedRow) (w : World) :
  SAMPLE_SIZE < Z.of_nat (length rows) ->
  fs_outcome w = FsOk ->
  fst (finish_run rows w) = Ok tt
  /\ exists sampled evs,
       trace (snd (finish_run rows w)) = trace w ++ evs
       /\ List.filter is_write evs
          = [ Mkdir "papers"; OpenWrite "papers/data_final.csv";
              WriteHeader ["paper_id"; "forum_url"; "reviewer_id"];
              WriteRows sampled ]
       /\ length sampled = 150%nat
       /\ sampled ⊆+ rows.
Proof.
  intros Hlen Hfs. destruct rows as [|r rs]; [simpl in Hlen; unfold SAMPLE_SIZE in Hlen; lia|].
  rewrite finish_run_cons. remember (r :: rs) as rows eqn:Hrows. clear Hrows.
  destruct (sampler_run rows w) as [sampled [w1 [rest [Hs [Ht [Hf [_ [Hn Hsub]]]]]]]].
  rewrite mbind_run, Hs. cbn [fst snd].
  rewrite mbind_run, write_phase. simpl fs_outcome. rewrite Hf, Hfs.
  rewrite !mbind_run. simpl. rewrite Ht.
  split; [reflexivity|]. exists sampled. eexists.
  split; [rewrite <- !app_assoc; simpl; reflexivity|].
  split; [reflexivity|]. split; [|exact Hsub].
  rewrite Hn. unfold SAMPLE_SIZE in Hlen. lia.
Qed.

(** X10: When a step of writing the output raises, the run prints the error
    as its last line and returns normally; it does not print the success
    banner, and when the directory cannot be created it does not open the
    file. *)
Theorem write_failure_reported (rows : list ExpandedRow) (w : World) (e : PyException) :
  rows <> [] ->
  (fs_outcome w = MkdirFails e \/ fs_outcome w = OpenFails e
   \/ fs_outcome w = WriteFails e) ->
  fst (finish_run rows w) = Ok tt
  /\ exists evs,
       trace (snd (finish_run rows w)) = trace w ++ evs
       /\ last evs = Some (Print ("[ERROR] Error writing output file: " +:+ exc_msg e) nl)
       /\ (Print "[SUCCESS] Done!" nl ∉ evs)
       /\ (fs_outcome w = MkdirFails e -> List.filter is_write evs = [Mkdir "papers"]).
Proof.
  intros Hne Hfs. destruct rows as [|r rs]; [contradiction|].
  rewrite finish_run_cons. remember (r :: rs) as rows eqn:Hrows. clear Hrows Hne.
  destruct (sampler_run rows w) as [sampled [w1 [rest [Hs [Ht [Hf _]]]]]].
  rewrite mbind_run, Hs. cbn [fst snd].
  rewrite mbind_run, write_phase. simpl fs_outcome. rewrite Hf.
  destruct Hfs as [Hfs | [Hfs | Hfs]]; rewrite Hfs; rewrite !mbind_run; simpl; rewrite Ht;
    (split; [reflexivity|]);
    (eexists; split; [rewrite <- !app_assoc; simpl; reflexivity|]);
    (split; [reflexivity|]);
    (split; [|first [reflexivity | discriminate]]);
    intros Hin;
    repeat (apply elem_of_cons in Hin; destruct Hin as [Hin|Hin];
            [discriminate Hin|]);
    now apply elem_of_nil in Hin.
Qed.

Lemma finish_run_returns (rows : list ExpandedRow) (w : World) :
  fst (finish_run rows w) = Ok tt.
Proof.
  destruct rows as [|r rs]; [reflexivity|].
  rewrite finish_run_cons. remember (r :: rs) as rows eqn:Hrows. clear Hrows.
  destruct (sampler_run rows w) as [sampled [w1 [rest [Hs _]]]].
  rewrite mbind_run, Hs. cbn [fst snd].
  rewrite mbind_run, write_phase. simpl fs_outcome.
  destruct (fs_outcome w1); now rewrite !mbind_run.
Qed.

(** X11: [main] never ends with an exception: [random.sample] is only called
    with a sample size between zero and the number of rows, and every
    other failure is caught and printed. *)
Theorem main_never_raises (w : World) : fst (main w) = Ok tt.
Proof.
  unfold main. rewrite !mbind_run. simpl.
  destruct (connect_outcome w); [now rewrite !mbind_run|].
  rewrite !mbind_run. simpl.
  destruct (input_outcome w) as [papers| |e]; try now rewrite !mbind_run.
  rewrite main_from_papers_run. apply finish_run_returns.
Qed.

End RunExtrasSampled.

(** ** The sampling scripts *)

Section ScriptFacts.

Context `{PandasLaws} {concat : PandasConcat} {concat_laws : PandasConcatLaws}.

Lemma df_sample_ok (df : DataFrame) (n random_state : Z) :
  0 <= n <= Z.of_nat (length (df_rows df)) ->
  exists picked, df_sample df n random_state = Ok (mkFrame (df_columns df) picked)
                 /\ length picked = Z.to_nat n
                 /\ picked ⊆+ df_rows df.
Proof.
  intros Hn. unfold df_sample.
  destruct (pd_sample_ok _ (df_rows df) n random_state Hn) as [res [Hres [Hlen Hsub]]].
  rewrite Hres. now exists res.
Qed.

Lemma df_sample_short (df : DataFrame) (n random_state : Z) :
  Z.of_nat (length (df_rows df)) < n ->
  exists e, df_sample df n random_state = Raise e.
Proof.
  intros Hn. unfold df_sample. rewrite (pd_sample_too_large _ _ _ _ Hn).
  eexists; reflexivity.
Qed.

(** X15: [data_sampler.py] on a table of at least 150 rows writes
    [sampled_data.csv] once: 150 rows taken from distinct positions of the
    input, each with the column [bias_result] set to the empty string. *)
Theorem data_sampler_writes (env : ScriptEnv) (df : DataFrame) :
  read_csv env "original_data_200.csv" = Ok df ->
  (150 <= length (df_rows df))%nat ->
  to_csv_error env "sampled_data.csv" = None ->
  exists picked,
    picked ⊆+ df_rows df
    /\ length picked = 150%nat
    /\ data_sampler_py env
       = (Ok tt, [ToCsv "sampled_data.csv"
                        (df_setitem "bias_result" (str_cell "")
                                    (mkFrame (df_columns df) picked))]).
Proof.
  intros Hread Hlen Hcsv.
  destruct (df_sample_ok df 150 100) as [picked [Hs [Hn Hsub]]]; [lia|].
  exists picked. split; [exact Hsub|]. split; [rewrite Hn; reflexivity|].
  unfold data_sampler_py. rewrite Hread. unfold lift, sbind at 1.
  rewrite Hs. unfold sbind, to_csv. now rewrite Hcsv.
Qed.

(** X16: [data_sampler.py] has no fallback for a small table: when the input
    cannot be read or has fewer than 150 rows, the script ends with an
    exception and writes nothing. *)
Theorem data_sampler_needs_150_rows (env : ScriptEnv) :
  (forall df, read_csv env "original_data_200.csv" = Ok df ->
              (length (df_rows df) < 150)%nat) ->
  exists e, data_sampler_py env = (Raise e, []).
Proof.
  intros Hshort. unfold data_sampler_py.
  destruct (read_csv env "original_data_200.csv") as [df|e] eqn:Hread.
  - destruct (df_sample_short df 150 100) as [e He]; [specialize (Hshort df eq_refl); lia|].
    unfold lift, sbind. rewrite He. now exists e.
  - now exists e.
Qed.

(** X17: [sampler.py] on two tables of at least 100 rows each writes
    [data.csv] once, then prints its message: the table written is what
    [pd.concat] makes of 100 rows taken from distinct positions of the
    2024 table and 100 rows taken from distinct positions of the 2025
    table, in this order, so it has the 200 rows that the message
    announces. *)
Theorem sampler_py_writes (env : ScriptEnv) (df_2024 df_2025 : DataFrame) :
  read_csv env "ICLR_2024_papers.csv" = Ok df_2024 ->
  read_csv env "ICLR_2025_papers.csv" = Ok df_2025 ->
  (100 <= length (df_rows df_2024))%nat ->
  (100 <= length (df_rows df_2025))%nat ->
  to_csv_error env "data.csv" = None ->
  exists picked_2024 picked_2025,
    picked_2024 ⊆+ df_rows df_2024 /\ length picked_2024 = 100%nat
    /\ picked_2025 ⊆+ df_rows df_2025 /\ length picked_2025 = 100%nat
    /\ sampler_py env
       = (Ok tt,
          [ ToCsv "data.csv" (pd_concat (mkFrame (df_columns df_2024) picked_2024)
                                        (mkFrame (df_columns df_2025) picked_2025));
            Printed (check_mark +:+ " data.csv created with 200 rows (100 from each file)") ])
    /\ length (df_rows (pd_concat (mkFrame (df_columns df_2024) picked_2024)
                                  (mkFrame (df_columns df_2025) picked_2025))) = 200%nat.
Proof.
  intros Hr24 Hr25 Hl24 Hl25 Hcsv.
  destruct (df_sample_ok df_2024 100 42) as [p24 [Hs24 [Hn24 Hsub24]]]; [lia|].
  destruct (df_sample_ok df_2025 100 42) as [p25 [Hs25 [Hn25 Hsub25]]]; [lia|].
  exists p24, p25.
  split; [exact Hsub24|]. split; [rewrite Hn24; reflexivity|].
  split; [exact Hsub25|]. split; [rewrite Hn25; reflexivity|].
  split.
  - unfold sampler_py. rewrite Hr24, Hr25. unfold lift. unfold sbind at 1 2.
    rewrite Hs24. unfold sbind at 1. rewrite Hs25.
    unfold sbind, to_csv, py_print. now rewrite Hcsv.
  - rewrite pd_concat_length. cbn [df_rows]. now rewrite Hn24, Hn25.
Qed.

(** X18: [sampler.py] needs both inputs: when one of the two files cannot be
    read or has fewer than 100 rows, the script ends with an exception,
    writes nothing and prints nothing. *)
Theorem sampler_py_needs_100_rows (env : ScriptEnv) :
  (forall df, read_csv env "ICLR_2024_papers.csv" = Ok df ->
              (length (df_rows df) < 100)%nat)
  \/ (forall df, read_csv env "ICLR_2025_papers.csv" = Ok df ->
                 (length (df_rows df) < 100)%nat) ->
  exists e, sampler_py env = (Raise e, []).
Proof.
  intros Hshort. unfold sampler_py.
  destruct (read_csv env "ICLR_2024_papers.csv") as [df24|e] eqn:Hr24;
    [|now exists e].
  destruct (read_csv env "ICLR_2025_papers.csv") as [df25|e] eqn:Hr25;
    [|now exists e].
  unfold lift. unfold sbind at 1 2.
  destruct (df_sample df24 100 42) as [s24|e] eqn:Hs24; [|now exists e].
  unfold sbind at 1.
  destruct (df_sample df25 100 42) as [s25|e] eqn:Hs25; [|now exists e].
  exfalso. destruct Hshort as [Hshort|Hshort].
  - destruct (df_sample_short df24 100 42) as [e He];
      [specialize (Hshort df24 eq_refl); lia | congruence].
  - destruct (df_sample_short df25 100 42) as [e He];
      [specialize (Hshort df25 eq_refl); lia | congruence].
Qed.

End ScriptFacts.

(** ** The further properties on the scripted platform *)

Lemma string_pandas_laws : @PandasLaws string_pandas.
Proof.
  split; intros A l n random_state Hn; simpl; unfold first_rows.
  - destruct (Z.leb_spec 0 n); [|lia].
    destruct (Z.leb_spec n (Z.of_nat (length l))); [|lia]. simpl.
    eexists. split; [reflexivity|]. split.
    + rewrite length_take. lia.
    + apply sublist_submseteq, sublist_take.
  - destruct (Z.leb_spec n (Z.of_nat (length l))); [lia|].
    now rewrite andb_false_r.
Qed.

Lemma small_run_writes_all_rows_witness :
  sample_rows <> []
  /\ Z.of_nat (length sample_rows) <= SAMPLE_SIZE
  /\ fs_outcome sample_world = FsOk
  /\ fst (@finish_run scripted sample_rows sample_world) = Ok tt
  /\ gen (snd (@finish_run scripted sample_rows sample_world)) = gen sample_world.
Proof.
  assert (Hne : sample_rows <> []) by discriminate.
  assert (Hlen : Z.of_nat (length sample_rows) <= SAMPLE_SIZE)
    by (unfold SAMPLE_SIZE; simpl; lia).
  split; [exact Hne|]. split; [exact Hlen|]. split; [reflexivity|].
  destruct (@small_run_writes_all_rows scripted sample_rows sample_world Hne Hlen eq_refl)
    as [Hok [Hgen _]].
  split; [exact Hok | exact Hgen].
Defined.

Lemma main_aborts_before_fetching_witness :
  is_Some (connect_outcome other_world)
  /\ fst (@main scripted other_world) = Ok tt
  /\ svc (snd (@main scripted other_world)) = svc other_world.
Proof.
  assert (Hc : is_Some (connect_outcome other_world)) by (eexists; reflexivity).
  split; [exact Hc|].
  destruct (@main_aborts_before_fetching scripted other_world (or_introl Hc))
    as [Hok [Hsvc _]].
  split; [exact Hok | exact Hsvc].
Defined.

Lemma large_run_writes_sample_witness :
  SAMPLE_SIZE < Z.of_nat (length many_rows)
  /\ fs_outcome sample_world = FsOk
  /\ fst (@finish_run scripted many_rows sample_world) = Ok tt.
Proof.
  assert (Hlen : SAMPLE_SIZE < Z.of_nat (length many_rows)).
  { reflexivity. }
  split; [exact Hlen|]. split; [reflexivity|].
  exact (proj1 (@large_run_writes_sample scripted scripted_random_sample_laws
                  many_rows sample_world Hlen eq_refl)).
Defined.

Lemma write_failure_reported_witness :
  sample_rows <> []
  /\ fs_outcome readonly_world
     = MkdirFails (mkExc "PermissionError" "[Errno 13] Permission denied: 'papers'")
  /\ fst (@finish_run scripted sample_rows readonly_world) = Ok tt.
Proof.
  assert (Hne : sample_rows <> []) by discriminate.
  split; [exact Hne|]. split; [reflexivity|].
  exact (proj1 (@write_failure_reported scripted scripted_random_sample_laws
                  sample_rows readonly_world _ Hne (or_introl eq_refl))).
Defined.

Lemma main_never_raises_witness :
  fst (@main scripted sample_world) = Ok tt
  /\ fst (@main scripted readonly_world) = Ok tt.
Proof.
  split.
  - exact (@main_never_raises scripted scripted_random_sample_laws sample_world).
  - exact (@main_never_raises scripted scripted_random_sample_laws readonly_world).
Defined.

Lemma data_sampler_writes_witness :
  read_csv sample_env "original_data_200.csv" = Ok (frame_of 200 "c")
  /\ (150 <= length (df_rows (frame_of 200 "c")))%nat
  /\ to_csv_error sample_env "sampled_data.csv" = None
  /\ exists picked,
       picked ⊆+ df_rows (frame_of 200 "c")
       /\ length picked = 150%nat
       /\ data_sampler_py sample_env
          = (Ok tt, [ToCsv "sampled_data.csv"
                           (df_setitem "bias_result" (str_cell "")
                              (mkFrame (df_columns (frame_of 200 "c")) picked))]).
Proof.
  assert (Hlen : (150 <= length (df_rows (frame_of 200 "c")))%nat).
  { apply Nat.leb_le. reflexivity. }
  split; [reflexivity|]. split; [exact Hlen|]. split; [reflexivity|].
  exact (@data_sampler_writes string_pandas string_pandas_laws sample_env
           (frame_of 200 "c") eq_refl Hlen eq_refl).
Defined.

Lemma data_sampler_needs_150_rows_witness :
  (forall df, read_csv short_env "original_data_200.csv" = Ok df ->
              (length (df_rows df) < 150)%nat)
  /\ exists e, data_sampler_py short_env = (Raise e, []).
Proof.
  assert (Hshort : forall df, read_csv short_env "original_data_200.csv" = Ok df ->
                              (length (df_rows df) < 150)%nat).
  { intros df Hdf. injection Hdf as <-. apply Nat.ltb_lt. reflexivity. }
  split; [exact Hshort|].
  exact (@data_sampler_needs_150_rows string_pandas string_pandas_laws short_env Hshort).
Defined.

Lemma append_rows_laws : @PandasConcatLaws string_pandas append_rows.
Proof. split. intros a b. simpl. apply length_app. Qed.

Lemma sampler_py_writes_witness :
  read_csv sample_env "ICLR_2024_papers.csv" = Ok (frame_of 120 "a")
  /\ read_csv sample_env "ICLR_2025_papers.csv" = Ok (frame_of 100 "b")
  /\ exists picked_2024 picked_2025,
       picked_2024 ⊆+ df_rows (frame_of 120 "a") /\ length picked_2024 = 100%nat
       /\ picked_2025 ⊆+ df_rows (frame_of 100 "b") /\ length picked_2025 = 100%nat
       /\ @sampler_py string_pandas append_rows sample_env
          = (Ok tt,
             [ ToCsv "data.csv"
                     (@pd_concat string_pandas append_rows
                        (mkFrame (df_columns (frame_of 120 "a")) picked_2024)
                        (mkFrame (df_columns (frame_of 100 "b")) picked_2025));
               Printed (check_mark +:+ " data.csv created with 200 rows (100 from each file)") ])
       /\ length (df_rows (@pd_concat string_pandas append_rows
                             (mkFrame (df_columns (frame_of 120 "a")) picked_2024)
                             (mkFrame (df_columns (frame_of 100 "b")) picked_2025)))
          = 200%nat.
Proof.
  assert (Ha : (100 <= length (df_rows (frame_of 120 "a")))%nat).
  { apply Nat.leb_le. reflexivity. }
  assert (Hb : (100 <= length (df_rows (frame_of 100 "b")))%nat).
  { apply Nat.leb_le. reflexivity. }
  split; [reflexivity|]. split; [reflexivity|].
  exact (@sampler_py_writes string_pandas string_pandas_laws append_rows append_rows_laws
           sample_env (frame_of 120 "a") (frame_of 100 "b") eq_refl eq_refl Ha Hb eq_refl).
Defined.

Lemma sampler_py_needs_100_rows_witness :
  (forall df, read_csv short_env "ICLR_2025_papers.csv" = Ok df ->
              (length (df_rows df) < 100)%nat)
  /\ exists e, @sampler_py string_pandas append_rows short_env = (Raise e, []).
Proof.
  assert (Hshort : forall df, read_csv short_env "ICLR_2025_papers.csv" = Ok df ->
                              (length (df_rows df) < 100)%nat).
  { intros df Hdf. injection Hdf as <-. apply Nat.ltb_lt. reflexivity. }
  split; [exact Hshort|].
  exact (@sampler_py_needs_100_rows string_pandas string_pandas_laws append_rows short_env
           (or_intror Hshort)).
Defined.

Section RowOrder.

Context `{Platform}.

(** X3: The rows that one paper adds are, in the order of the fetched
    reviews, one row for each review whose extracted identity passes the
    test [if reviewer_id:], built from the paper's identifier and URL and
    that identity; nothing is merged, so two reviews with the same first
    signature give two equal rows. *)
Theorem process_paper_rows_in_order (total idx : nat) (p : Paper)
    (st : LoopState) (w : World) :
  expanded_rows (fst (process_paper total idx p st w))
  = expanded_rows st
    ++ map (fun r => mkRow (p_paper_id p) (p_forum_url p) (extract_reviewer_id r))
           (List.filter yields_row (fst (fetch_reviews (p_paper_id p) w)))
  /\ (forall r, yields_row r = true ->
        fst (fetch_reviews (p_paper_id p) w) = [r; r] ->
        expanded_rows (fst (process_paper total idx p st w))
        = expanded_rows st
          ++ [ mkRow (p_paper_id p) (p_forum_url p) (extract_reviewer_id r);
               mkRow (p_paper_id p) (p_forum_url p) (extract_reviewer_id r) ]).
Proof.
  rewrite process_paper_state. simpl. split; [reflexivity|].
  intros r Hr Hf. rewrite Hf. simpl. now rewrite Hr.
Qed.

End RowOrder.
